(** * Commitron: the counter-bumping Lambda of [lambda_function.py]

    A shallow embedding of the four routines of the handler
    ([get_github_token], [setup_repo], [update_counter], [lambda_handler])
    together with the pieces of the Python runtime they lean on
    ([str.strip], [int], [str], [os.path.join], [json.dumps]).

    Conventions.
    - A Python [str] is a [string]; a character is the code point it
      denotes, so the development covers text whose code points are below
      256 (in that range the decimal digits are exactly "0".."9").
    - A Python [int] is a [Z]; the interpreter's optional cap on the length
      of decimal conversions is taken to be switched off.
    - An exception is a value of [exn]; only subclasses of [Exception] are
      represented, these being the ones [except Exception] intercepts. *)

From Stdlib Require Import ZArith Ascii String List Lia.
From stdpp Require Import base option strings gmap fin_maps.

Local Open Scope string_scope.
Local Open Scope Z_scope.

(** ** Python text primitives *)

Module Py.

Definition ord (c : ascii) : Z := Z.of_N (N_of_ascii c).

(** [str.isspace] on one character, restricted to code points below 256. *)
Definition isspace (c : ascii) : bool :=
  let n := ord c in
  ((9 <=? n) && (n <=? 13)) || ((28 <=? n) && (n <=? 32))
  || (n =? 133) || (n =? 160).

(** The blanks [int] skips around a numeral: the C locale blanks, plus the
    two non-ASCII spaces that the conversion first rewrites to " ". *)
Definition int_space (c : ascii) : bool :=
  let n := ord c in
  ((9 <=? n) && (n <=? 13)) || (n =? 32) || (n =? 133) || (n =? 160).

Definition isdigit (c : ascii) : bool :=
  let n := ord c in (48 <=? n) && (n <=? 57).

Definition digit_value (c : ascii) : Z := ord c - 48.

Fixpoint lstrip_by (f : ascii -> bool) (s : string) : string :=
  match s with
  | String c s' => if f c then lstrip_by f s' else s
  | EmptyString => EmptyString
  end.

Fixpoint rstrip_by (f : ascii -> bool) (s : string) : string :=
  match s with
  | String c s' =>
      match rstrip_by f s' with
      | EmptyString => if f c then EmptyString else String c EmptyString
      | r => String c r
      end
  | EmptyString => EmptyString
  end.

(** [s.strip()] *)
Definition strip (s : string) : string := rstrip_by isspace (lstrip_by isspace s).

(** The digit loop of the integer parser: digits accumulate in base ten, a
    single underscore is passed over only when a digit follows it. The
    unread rest is returned with the value. *)
Fixpoint scan_digits (acc : Z) (s : string) : Z * string :=
  match s with
  | String c s' =>
      if isdigit c then scan_digits (10 * acc + digit_value c) s'
      else if Ascii.eqb c "_" then
        match s' with
        | String c' _ => if isdigit c' then scan_digits acc s' else (acc, s)
        | EmptyString => (acc, s)
        end
      else (acc, s)
  | EmptyString => (acc, s)
  end.

Definition starts_with_digit (s : string) : bool :=
  match s with
  | String c _ => isdigit c
  | EmptyString => false
  end.

(** An unsigned numeral followed by blanks only. *)
Definition parse_magnitude (s : string) : option Z :=
  if starts_with_digit s then
    let '(n, rest) := scan_digits 0 s in
    match lstrip_by int_space rest with
    | EmptyString => Some n
    | _ => None
    end
  else None.

(** [int(s)] in base ten; [None] stands for [ValueError]. *)
Definition int (s : string) : option Z :=
  match lstrip_by int_space s with
  | String c s' =>
      if Ascii.eqb c "+" then parse_magnitude s'
      else if Ascii.eqb c "-" then Z.opp <$> parse_magnitude s'
      else parse_magnitude (String c s')
  | EmptyString => None
  end.

Definition digit_char (d : Z) : ascii := ascii_of_N (Z.to_N (48 + d)).

(** Decimal digits of a natural number, most significant first, pushed in
    front of [acc]. [fuel] bounds the number of further divisions. *)
Fixpoint digits_of (fuel : nat) (n : Z) (acc : string) : string :=
  let acc' := String (digit_char (n mod 10)) acc in
  match fuel with
  | O => acc'
  | S fuel' => if n <? 10 then acc' else digits_of fuel' (n / 10) acc'
  end.

Definition str_nat (n : Z) : string := digits_of (Z.to_nat (Z.log2 n)) n "".

(** [str(z)] for an integer. *)
Definition str (z : Z) : string :=
  if z <? 0 then String "-" (str_nat (- z)) else str_nat z.

(** [sep.join(l)] *)
Fixpoint join (sep : string) (l : list string) : string :=
  match l with
  | [] => ""
  | [x] => x
  | x :: l' => x ++ sep ++ join sep l'
  end.

Definition startswith (s p : string) : bool := String.prefix p s.

Fixpoint endswith_char (s : string) (c : ascii) : bool :=
  match s with
  | EmptyString => false
  | String a EmptyString => Ascii.eqb a c
  | String _ s' => endswith_char s' c
  end.

(** [os.path.join(a, b)] on a POSIX system, two components. *)
Definition path_join (a b : string) : string :=
  if startswith b "/" then b
  else if orb (String.eqb a "") (endswith_char a "/") then a ++ b
  else a ++ "/" ++ b.

Definition dquote : ascii := "034"%char.
Definition quoted (s : string) : string :=
  String dquote (s ++ String dquote "").

Definition hex_char (d : Z) : ascii :=
  if d <? 10 then ascii_of_N (Z.to_N (48 + d)) else ascii_of_N (Z.to_N (87 + d)).

(** One character of a JSON string as the encoder emits it with its
    default [ensure_ascii]: short escapes for the quote, the backslash and
    five control characters, the character itself when printable ASCII, a
    four-digit unicode escape otherwise. *)
Definition json_escape_char (c : ascii) : string :=
  let n := ord c in
  if n =? 34 then String "\" (String dquote "")
  else if n =? 92 then "\\"
  else if n =? 10 then "\n"
  else if n =? 13 then "\r"
  else if n =? 9 then "\t"
  else if n =? 8 then "\b"
  else if n =? 12 then "\f"
  else if (32 <=? n) && (n <=? 126) then String c ""
  else "\u00" ++ String (hex_char (n / 16)) (String (hex_char (n mod 16)) "").

Fixpoint json_escape (s : string) : string :=
  match s with
  | String c s' => json_escape_char c ++ json_escape s'
  | EmptyString => ""
  end.

Definition json_string (s : string) : string := quoted (json_escape s).

Definition json_member (kv : string * string) : string :=
  json_string kv.1 ++ ": " ++ json_string kv.2.

(** [json.dumps(d)] for a dictionary [d] of strings, given as its items in
    insertion order. *)
Definition json_dumps (d : list (string * string)) : string :=
  "{" ++ join ", " (json_member <$> d) ++ "}".

End Py.


(** ** The world around the handler *)

(** Exception classes the handler can tell apart, and the ones its
    collaborators raise. *)
Inductive exn_class : Set :=
| ClientError | ValueError | KeyError | OSError
| CalledProcessError | GitCommandError | OtherException.

(** An exception value: its class and [str(e)]. *)
Record exn : Set := Exn { exn_kind : exn_class; exn_str : string }.

Inductive level : Set := INFO | WARNING | ERROR.

Inductive node : Set := File (content : string) | Dir.

(** Calls that leave the module: each one is recorded when it is made. *)
Inductive event : Set :=
| EBotoClient (service : string)
| EGetSecretValue (secret_id : string)
| ERun (argv : list string)
| ECloneFrom (url to_path branch : string)
| EConfigWriter (config_level : string)
| ESetValue (section option value : string)
| EConfigRelease
| EOpen (path mode : string)
| ERead (path : string)
| EWrite (path data : string)
| EClose (path : string)
| EGitAdd (path : string)
| EIndexCommit (message : string)
| ERemote (name : string)
| EPush (name : string).

(** Everything the module does not decide itself.
    [fault e] is the exception the call [e] raises, if it raises;
    [secret_string] is the [SecretString] entry of the response, if any;
    [checkout] is what a successful clone makes of the filesystem. *)
Record world : Type := World {
  environ : gmap string string;
  fault : event -> option exn;
  secret_string : string -> option string;
  checkout : string -> string -> string -> gmap string node -> gmap string node
}.

Record state : Type := State {
  fs : gmap string node;
  log : list (level * string);
  trace : list event
}.

Inductive result (A : Type) : Type :=
| Ok (a : A)
| Raise (e : exn).
Arguments Ok {A} a.
Arguments Raise {A} e.

Definition M (A : Type) : Type := state -> result A * state.

Definition ret {A} (a : A) : M A := fun s => (Ok a, s).

Definition raise {A} (e : exn) : M A := fun s => (Raise e, s).

Definition bind {A B} (m : M A) (k : A -> M B) : M B :=
  fun s =>
    match m s with
    | (Ok a, s') => k a s'
    | (Raise e, s') => (Raise e, s')
    end.

(** [try: m  except Exception as e: h e] *)
Definition try_except {A} (m : M A) (h : exn -> M A) : M A :=
  fun s =>
    match m s with
    | (Ok a, s') => (Ok a, s')
    | (Raise e, s') => h e s'
    end.

Notation "'let!' x := m 'in' k" := (bind m (fun x => k))
  (at level 10, x name, m at level 100, k at level 200,
   format "'[v' 'let!'  x  :=  m  'in' '/' k ']'").
Notation "'do' m ; k" := (bind m (fun _ => k))
  (at level 10, m at level 100, k at level 200,
   format "'[v' 'do'  m ; '/' k ']'").

(** [with enter as x: body x], the manager's exit being [leave]: the exit
    runs once, on either way out of the body, and an exception of its own
    replaces the one in flight. *)
Definition with_ {A B} (enter : M A) (leave : M unit) (body : A -> M B) : M B :=
  let! x := enter in
  fun s =>
    match body x s with
    | (Ok b, s') => (do leave; ret b) s'
    | (Raise e, s') => (do leave; raise e) s'
    end.

Definition logger (l : level) (msg : string) : M unit :=
  fun s => (Ok tt, State (fs s) (log s ++ [(l, msg)]) (trace s)).

Definition get_fs : M (gmap string node) := fun s => (Ok (fs s), s).

Definition set_fs (f : gmap string node) : M unit :=
  fun s => (Ok tt, State f (log s) (trace s)).

Definition is_below (dir path : string) : bool :=
  String.eqb path dir || Py.startswith path (dir ++ "/").

(** What [rm -rf dir] leaves of a filesystem. *)
Definition remove_tree (dir : string) (f : gmap string node) : gmap string node :=
  filter (fun kv => is_below dir kv.1 = false) f.

Definition os_error (what path : string) : exn :=
  Exn OSError (what ++ ": '" ++ path ++ "'").

(** ** The module *)

(** The handle [Repo.clone_from] returns. *)
Record Repo : Set := { working_dir : string }.

(** The value a Lambda handler hands back. *)
Record response : Set := Response { statusCode : Z; body : string }.

Definition is_client_error (e : exn) : bool :=
  match exn_kind e with
  | ClientError => true
  | _ => false
  end.

(** Truth value of [os.environ.get(var)]. *)
Definition truthy (o : option string) : bool :=
  match o with
  | Some (String _ _) => true
  | _ => false
  end.

Definition required_env_vars : list string :=
  ["GITHUB_REPO"; "FILE_PATH"; "BRANCH"; "AWS_SECRET_ID"].

Definition repo_dir : string := "/tmp/repo".

Section Handler.

Variable w : world.

(** An outside call: noted in the trace, then it returns or raises as the
    world has it. *)
Definition call (e : event) : M unit :=
  fun s =>
    let s' := State (fs s) (log s) (trace s ++ [e]) in
    match fault w e with
    | Some x => (Raise x, s')
    | None => (Ok tt, s')
    end.

(** [os.environ[name]] *)
Definition environ_item (name : string) : M string :=
  match environ w !! name with
  | Some v => ret v
  | None => raise (Exn KeyError ("'" ++ name ++ "'"))
  end.

(** [os.path.exists(path)] *)
Definition path_exists (path : string) : M bool :=
  fun s => (Ok (match fs s !! path with Some _ => true | None => false end), s).

(** [subprocess.run(["rm", "-rf", dir], check=True)] *)
Definition run_rm_rf (dir : string) : M unit :=
  do call (ERun ["rm"; "-rf"; dir]);
  let! f := get_fs in
  set_fs (remove_tree dir f).

(** [Repo.clone_from(url, to_path, branch=branch)] *)
Definition clone_from (url to_path branch : string) : M Repo :=
  do call (ECloneFrom url to_path branch);
  let! f := get_fs in
  do set_fs (checkout w url to_path branch f);
  ret {| working_dir := to_path |}.

(** [open(path, "r")]; the handle is the text the file holds. *)
Definition open_read (path : string) : M string :=
  do call (EOpen path "r");
  let! f := get_fs in
  match f !! path with
  | Some (File c) => ret c
  | Some Dir => raise (os_error "[Errno 21] Is a directory" path)
  | None => raise (os_error "[Errno 2] No such file or directory" path)
  end.

(** [file.read()] *)
Definition read (path : string) (handle : string) : M string :=
  do call (ERead path);
  ret handle.

(** [open(path, "w")]: the file is created or emptied. *)
Definition open_write (path : string) : M unit :=
  do call (EOpen path "w");
  let! f := get_fs in
  match f !! path with
  | Some Dir => raise (os_error "[Errno 21] Is a directory" path)
  | _ => set_fs (<[path := File ""]> f)
  end.

(** [file.write(data)] on a file just opened for writing. *)
Definition write (path data : string) : M unit :=
  do call (EWrite path data);
  let! f := get_fs in
  set_fs (<[path := File data]> f).

Definition close (path : string) : M unit := call (EClose path).

Definition get_github_token : M string :=
  try_except
    (do call (EBotoClient "secretsmanager");
     let! secret_id := environ_item "AWS_SECRET_ID" in
     do call (EGetSecretValue secret_id);
     match secret_string w secret_id with
     | Some token => ret token
     | None => raise (Exn KeyError "'SecretString'")
     end)
    (fun e =>
       if is_client_error e then
         do logger ERROR ("Failed to retrieve secret: " ++ exn_str e);
         raise e
       else raise e).

Definition setup_repo (token repo_url branch : string) : M Repo :=
  try_except
    (let! there := path_exists repo_dir in
     do (if there then
           do logger INFO "Cleaning up existing repo directory";
           run_rm_rf repo_dir
         else ret tt);
     do logger INFO "Cloning repository";
     let! repo := clone_from repo_url repo_dir branch in
     do with_ (call (EConfigWriter "repository")) (call EConfigRelease)
          (fun _ =>
             do call (ESetValue "user" "name" "Commitron Bot");
             call (ESetValue "user" "email" "bot@commitron.com"));
     ret repo)
    (fun e =>
       do logger ERROR ("Failed to set up repository: " ++ exn_str e);
       raise e).

Definition update_counter (file_path : string) : M Z :=
  try_except
    (let! there := path_exists file_path in
     let! counter :=
       (if there then
          with_ (open_read file_path) (close file_path)
            (fun file =>
               let! text := read file_path file in
               let content := Py.strip text in
               match Py.int content with
               | Some n => ret (n + 1)
               | None =>
                   do logger WARNING
                        ("Invalid counter value in file: " ++ content
                         ++ ", resetting to 1");
                   ret 1
               end)
        else ret 1) in
     do with_ (open_write file_path) (close file_path)
          (fun _ => write file_path (Py.str counter));
     ret counter)
    (fun e =>
       do logger ERROR ("Failed to update counter: " ++ exn_str e);
       raise e).

Definition missing_vars : list string :=
  List.filter (fun var => negb (truthy (environ w !! var))) required_env_vars.

Definition authenticated_url (token github_repo : string) : string :=
  "https://" ++ token ++ "@github.com/" ++ github_repo ++ ".git".

Definition success_response (counter : Z) (github_repo branch : string) : response :=
  {| statusCode := 200;
     body := Py.json_dumps
               [("message", "Counter updated to " ++ Py.str counter);
                ("repository", github_repo);
                ("branch", branch)] |}.

Definition failure_response (e : exn) : response :=
  {| statusCode := 500;
     body := Py.json_dumps [("error", exn_str e)] |}.

(** The body of the [try] statement of [lambda_handler]. *)
Definition lambda_steps : M response :=
  do (match missing_vars with
      | [] => ret tt
      | _ => raise (Exn ValueError
                      ("Missing required environment variables: "
                       ++ Py.join ", " missing_vars))
      end);
  let! github_repo := environ_item "GITHUB_REPO" in
  let! file_path := environ_item "FILE_PATH" in
  let! branch := environ_item "BRANCH" in
  let! token := get_github_token in
  let repo_url := authenticated_url token github_repo in
  let! repo := setup_repo token repo_url branch in
  let counter_file_path := Py.path_join "/tmp/repo" file_path in
  let! counter := update_counter counter_file_path in
  do call (EGitAdd counter_file_path);
  let commit_message :=
    "Automated commit: Increment counter to " ++ Py.str counter in
  do call (EIndexCommit commit_message);
  do logger INFO "Created commit";
  do call (ERemote "origin");
  do call (EPush "origin");
  do logger INFO "Successfully pushed changes to remote repository";
  ret (success_response counter github_repo branch).

Definition lambda_handler : M response :=
  try_except lambda_steps
    (fun e =>
       do logger ERROR ("Lambda execution failed: " ++ exn_str e);
       ret (failure_response e)).

End Handler.

(** ** Vocabulary for the statements

    The calls, log lines and values a run is expected to produce, as
    functions of what the run finds. *)

(** No character of the string satisfies [f]. *)
Fixpoint free_of (f : ascii -> bool) (s : string) : bool :=
  match s with
  | String c s' => negb (f c) && free_of f s'
  | EmptyString => true
  end.

(** The inverse of [Py.json_escape] on what it emits: an escape sequence
    is turned back into its character, anything else is kept. *)
Definition hex_value (c : ascii) : option Z :=
  let n := Py.ord c in
  if (48 <=? n) && (n <=? 57) then Some (n - 48)
  else if (97 <=? n) && (n <=? 102) then Some (n - 87)
  else None.

Fixpoint json_unescape (s : string) : option string :=
  match s with
  | EmptyString => Some EmptyString
  | String c rest =>
      if negb (Py.ord c =? 92) then String c <$> json_unescape rest
      else
        match rest with
        | String k rest' =>
            let n := Py.ord k in
            if n =? 117 then
              match rest' with
              | String a (String b (String h (String l rest''))) =>
                  match hex_value a, hex_value b, hex_value h, hex_value l with
                  | Some 0, Some 0, Some x, Some y =>
                      String (ascii_of_N (Z.to_N (16 * x + y)))
                        <$> json_unescape rest''
                  | _, _, _, _ => None
                  end
              | _ => None
              end
            else
              let plain (d : Z) :=
                String (ascii_of_N (Z.to_N d)) <$> json_unescape rest' in
              if n =? 34 then plain 34
              else if n =? 92 then plain 92
              else if n =? 110 then plain 10
              else if n =? 114 then plain 13
              else if n =? 116 then plain 9
              else if n =? 98 then plain 8
              else if n =? 102 then plain 12
              else None
        | EmptyString => None
        end
  end.

(** No call of the list raises. *)
Definition no_fault (w : world) (l : list event) : Prop :=
  forall e, In e l -> fault w e = None.

(** The value [update_counter] settles on, from what it finds at the path. *)
Definition next_counter (o : option node) : Z :=
  match o with
  | Some (File text) =>
      match Py.int (Py.strip text) with
      | Some n => n + 1
      | None => 1
      end
  | _ => 1
  end.

Definition counter_warning (o : option node) : list (level * string) :=
  match o with
  | Some (File text) =>
      match Py.int (Py.strip text) with
      | Some _ => []
      | None =>
          [(WARNING, "Invalid counter value in file: " ++ Py.strip text
                     ++ ", resetting to 1")]
      end
  | _ => []
  end.

Definition read_events (p : string) : list event :=
  [EOpen p "r"; ERead p; EClose p].

Definition write_events (p : string) (c : Z) : list event :=
  [EOpen p "w"; EWrite p (Py.str c); EClose p].

Definition counter_events (p : string) (o : option node) (c : Z) : list event :=
  match o with
  | Some _ => read_events p ++ write_events p c
  | None => write_events p c
  end.

Definition secret_events (secret_id : string) : list event :=
  [EBotoClient "secretsmanager"; EGetSecretValue secret_id].

Definition dir_exists (f : gmap string node) (dir : string) : bool :=
  match f !! dir with
  | Some _ => true
  | None => false
  end.

Definition cleanup_events (there : bool) : list event :=
  if there then [ERun ["rm"; "-rf"; "/tmp/repo"]] else [].

Definition clone_events (url branch : string) : list event :=
  [ECloneFrom url "/tmp/repo" branch;
   EConfigWriter "repository";
   ESetValue "user" "name" "Commitron Bot";
   ESetValue "user" "email" "bot@commitron.com";
   EConfigRelease].

Definition repo_events (there : bool) (url branch : string) : list event :=
  cleanup_events there ++ clone_events url branch.

Definition repo_log (there : bool) : list (level * string) :=
  (if there then [(INFO, "Cleaning up existing repo directory")] else [])
  ++ [(INFO, "Cloning repository")].

(** The filesystem a successful [setup_repo] leaves. *)
Definition provisioned (w : world) (url branch : string)
    (f : gmap string node) : gmap string node :=
  checkout w url "/tmp/repo" branch
    (if dir_exists f "/tmp/repo" then remove_tree "/tmp/repo" f else f).

Definition publish_events (path : string) (counter : Z) : list event :=
  [EGitAdd path;
   EIndexCommit ("Automated commit: Increment counter to " ++ Py.str counter);
   ERemote "origin";
   EPush "origin"].

Definition publish_log : list (level * string) :=
  [(INFO, "Created commit");
   (INFO, "Successfully pushed changes to remote repository")].


(** [sub in s] for two strings. *)
Definition occurs_in (sub s : string) : Prop :=
  exists before after, s = before ++ sub ++ after.

(** A required setting counts as missing when it is unset or empty. *)
Definition unset_or_empty (w : world) (var : string) : Prop :=
  environ w !! var = None \/ environ w !! var = Some "".

(** *** Comparing two runs *)

(** Two states show the same files and the same log. *)
Definition same_obs (s1 s2 : state) : Prop :=
  fs s1 = fs s2 /\ log s1 = log s2.

(** Two outcomes agree: same observable state, and both return (values
    related by [R]) or both raise the same exception. *)
Definition related {A} (R : A -> A -> Prop)
    (x1 x2 : result A * state) : Prop :=
  same_obs x1.2 x2.2
  /\ match x1.1, x2.1 with
     | Ok a1, Ok a2 => R a1 a2
     | Raise e1, Raise e2 => e1 = e2
     | _, _ => False
     end.

Definition sim {A} (R : A -> A -> Prop) (m1 m2 : M A) : Prop :=
  forall s1 s2, same_obs s1 s2 -> related R (m1 s1) (m2 s2).

Definition is_clone (e : event) : bool :=
  match e with
  | ECloneFrom _ _ _ => true
  | _ => false
  end.

(** Two worlds that may hold different tokens but are otherwise alike:
    same settings, same answers to every call that does not carry the
    URL, a secret under the same identifiers, and a clone that fares the
    same with either token's URL. *)
Record token_blind (w1 w2 : world) : Prop := {
  tb_environ : environ w1 = environ w2;
  tb_fault : forall e, is_clone e = false -> fault w1 e = fault w2 e;
  tb_secret : forall secret_id,
    secret_string w1 secret_id = None <-> secret_string w2 secret_id = None;
  tb_clone : forall secret_id t1 t2 github_repo branch,
    secret_string w1 secret_id = Some t1 ->
    secret_string w2 secret_id = Some t2 ->
    fault w1 (ECloneFrom (authenticated_url t1 github_repo) "/tmp/repo" branch)
      = fault w2 (ECloneFrom (authenticated_url t2 github_repo) "/tmp/repo" branch)
    /\ forall f,
         checkout w1 (authenticated_url t1 github_repo) "/tmp/repo" branch f
           = checkout w2 (authenticated_url t2 github_repo) "/tmp/repo" branch f
}.

(** Two tokens that are the secrets the two worlds keep under one
    identifier. *)
Definition same_secret (w1 w2 : world) (t1 t2 : string) : Prop :=
  exists secret_id,
    secret_string w1 secret_id = Some t1 /\ secret_string w2 secret_id = Some t2.

(** ** Sample worlds *)

Module Sample.

Definition newline : string := String "010"%char "".

Definition settings : gmap string string :=
  list_to_map
    [("GITHUB_REPO", "octo/counter"); ("FILE_PATH", "counter.txt");
     ("BRANCH", "main"); ("AWS_SECRET_ID", "commitron/github")].

(** No outside call raises. *)
Definition calm : event -> option exn := fun _ => None.

(** A remote whose branch holds the counter file with the given text, or
    no counter file at all. *)
Definition remote (text : option string)
    : string -> string -> string -> gmap string node -> gmap string node :=
  fun _ to_path _ f =>
    match text with
    | Some t => <[to_path ++ "/counter.txt" := File t]> (<[to_path := Dir]> f)
    | None => <[to_path := Dir]> f
    end.

Definition world_with (text : option string) : world :=
  World settings calm (fun _ => Some "ghp_s3cr3t") (remote text).

Definition counter_path : string := "/tmp/repo/counter.txt".

Definition empty_disk : state := State ∅ [] [].

(** A disk where the clone directory and a counter file are in place. *)
Definition disk_holding (text : string) : state :=
  State {[ "/tmp/repo" := Dir; counter_path := File text ]} [] [].

(** A disk left over by an earlier run. *)
Definition stale_disk : state :=
  State {[ "/tmp/repo" := Dir; "/tmp/repo/old" := File "x";
           "/tmp/repository" := File "kept" ]} [] [].

(** A configuration with the branch unset and the file path empty. *)
Definition partial_settings : gmap string string :=
  list_to_map
    [("GITHUB_REPO", "octo/counter"); ("FILE_PATH", "");
     ("AWS_SECRET_ID", "commitron/github")].

Definition misconfigured : world :=
  World partial_settings calm (fun _ => Some "ghp_s3cr3t") (remote None).

(** A configuration whose file path is absolute. *)
Definition absolute_settings : gmap string string :=
  <["FILE_PATH" := "/var/counter.txt"]> settings.

Definition absolute_world : world :=
  World absolute_settings calm (fun _ => Some "ghp_s3cr3t") (remote None).

(** A remote that lets in one token only. *)
Definition gated_fault (e : event) : option exn :=
  match e with
  | ECloneFrom url _ _ =>
      if String.eqb url "https://ghp_s3cr3t@github.com/octo/counter.git"
      then None
      else Some (Exn GitCommandError "Authentication failed")
  | _ => None
  end.

Definition gated_world (token : string) : world :=
  World settings gated_fault (fun _ => Some token) (remote None).

(** A source-control client whose error text quotes the URL it was given. *)
Definition quoting_fault (e : event) : option exn :=
  match e with
  | ECloneFrom url _ _ =>
      Some (Exn GitCommandError ("fatal: unable to access '" ++ url ++ "'"))
  | _ => None
  end.

Definition quoting_world (token : string) : world :=
  World settings quoting_fault (fun _ => Some token) (remote None).

(** The calm world, holding a chosen token. *)
Definition calm_world (token : string) : world :=
  World settings calm (fun _ => Some token) (remote (Some "7")).

End Sample.

(** *** Further vocabulary *)

(** Text made of blanks only, in the sense of [str.isspace]. *)
Definition blank (s : string) : bool :=
  free_of (fun c => negb (Py.isspace c)) s.

(** The error [open] gives for a path that is a directory. *)
Definition is_a_directory (path : string) : exn :=
  os_error "[Errno 21] Is a directory" path.

(** Handles on [path] obtained in a trace: calls to [open] that went through. *)
Definition opened (w : world) (path : string) (t : list event) : nat :=
  length (List.filter
            (fun e => match e with
                      | EOpen q _ =>
                          String.eqb q path
                          && match fault w e with Some _ => false | None => true end
                      | _ => false
                      end) t).

(** Calls to [close] on [path] in a trace. *)
Definition closed (path : string) (t : list event) : nat :=
  length (List.filter
            (fun e => match e with
                      | EClose q => String.eqb q path
                      | _ => false
                      end) t).

(** Worlds in which one kind of call fails. *)
Module Faulty.

Definition no_space : exn := Exn OSError "[Errno 28] No space left on device".

Definition full_disk : world :=
  World Sample.settings
    (fun e => match e with EWrite _ _ => Some no_space | _ => None end)
    (fun _ => Some "ghp_s3cr3t") (Sample.remote (Some "41")).

Definition access_denied : exn :=
  Exn ClientError "An error occurred (AccessDeniedException)".

Definition denied : world :=
  World Sample.settings
    (fun e => match e with EGetSecretValue _ => Some access_denied | _ => None end)
    (fun _ => Some "ghp_s3cr3t") (Sample.remote (Some "41")).

Definition no_region : exn := Exn OtherException "You must specify a region.".

Definition regionless : world :=
  World Sample.settings
    (fun e => match e with EBotoClient _ => Some no_region | _ => None end)
    (fun _ => Some "ghp_s3cr3t") (Sample.remote (Some "41")).

Definition rejected : exn :=
  Exn GitCommandError "failed to push some refs".

Definition rejecting : world :=
  World Sample.settings
    (fun e => match e with EPush _ => Some rejected | _ => None end)
    (fun _ => Some "ghp_s3cr3t") (Sample.remote (Some "41")).

Definition locked : exn := Exn OSError "Lock for file could not be obtained".

Definition locking : world :=
  World Sample.settings
    (fun e => match e with ESetValue _ _ _ => Some locked | _ => None end)
    (fun _ => Some "ghp_s3cr3t") (Sample.remote (Some "41")).

(** Settings without the secret identifier. *)
Definition anonymous : world :=
  World (delete "AWS_SECRET_ID" Sample.settings) Sample.calm
    (fun _ => Some "ghp_s3cr3t") (Sample.remote (Some "41")).

End Faulty.

(** What a run of the handler needs to go through: a complete
    configuration, a secret under the configured identifier, a counter
    path that is not a directory in the clone, and an outside world in
    which none of the calls of the sequence raises. *)
Definition ready (w : world) (s : state) : Prop :=
  exists github_repo file_path branch secret_id token,
    missing_vars w = []
    /\ environ w !! "GITHUB_REPO" = Some github_repo
    /\ environ w !! "FILE_PATH" = Some file_path
    /\ environ w !! "BRANCH" = Some branch
    /\ environ w !! "AWS_SECRET_ID" = Some secret_id
    /\ secret_string w secret_id = Some token
    /\ let url := authenticated_url token github_repo in
       let path := Py.path_join "/tmp/repo" file_path in
       let cloned := provisioned w url branch (fs s) in
       let o := cloned !! path in
       o <> Some Dir
       /\ no_fault w (secret_events secret_id
                      ++ repo_events (dir_exists (fs s) "/tmp/repo") url branch
                      ++ counter_events path o (next_counter o)
                      ++ publish_events path (next_counter o)).

(** A computation that only ever adds lines to the log. *)
Definition appends {A} (m : M A) : Prop :=
  forall s, exists lines, log (m s).2 = (log s ++ lines)%list.

Definition is_error (line : level * string) : bool :=
  match line.1 with
  | ERROR => true
  | _ => false
  end.

(** *** The logger's level, set when the module is loaded *)

Definition level_no (l : level) : Z :=
  match l with
  | INFO => 20
  | WARNING => 30
  | ERROR => 40
  end.

(** The level names [setLevel] accepts; any other text is a [ValueError]. *)
Definition name_to_level (name : string) : option Z :=
  if String.eqb name "CRITICAL" then Some 50
  else if String.eqb name "FATAL" then Some 50
  else if String.eqb name "ERROR" then Some 40
  else if String.eqb name "WARN" then Some 30
  else if String.eqb name "WARNING" then Some 30
  else if String.eqb name "INFO" then Some 20
  else if String.eqb name "DEBUG" then Some 10
  else if String.eqb name "NOTSET" then Some 0
  else None.

(** [logger.setLevel(os.environ.get('LOG_LEVEL', 'INFO'))]: the level the
    root logger ends up with, or [None] when loading the module fails. *)
Definition configured_level (w : world) : option Z :=
  name_to_level (default "INFO" (environ w !! "LOG_LEVEL")).

(** The lines that pass a logger whose level is [threshold]. *)
Definition handled (threshold : Z) (lines : list (level * string))
    : list (level * string) :=
  List.filter (fun line => threshold <=? level_no line.1) lines.
Example int_examples :
  Py.int (Py.strip (" 41 " ++ String (ascii_of_nat 10) "")) = Some 41
  /\ Py.int "" = None /\ Py.int "abc" = None /\ Py.int "-5" = Some (-5)
  /\ Py.int "1_000" = Some 1000 /\ Py.int "1__0" = None /\ Py.int "1_" = None
  /\ Py.int "_1" = None /\ Py.int "+-5" = None /\ Py.int "- 5" = None
  /\ Py.int "007" = Some 7 /\ Py.int "5 5" = None /\ Py.int "+5" = Some 5.
Proof. repeat split; reflexivity. Qed.

Example str_examples :
  Py.str 0 = "0" /\ Py.str 42 = "42" /\ Py.str (-4) = "-4"
  /\ Py.str 1000 = "1000" /\ Py.str 1023 = "1023" /\ Py.str 9 = "9".
Proof. repeat split; reflexivity. Qed.

Example path_join_examples :
  Py.path_join "/tmp/repo" "a/b" = "/tmp/repo/a/b"
  /\ Py.path_join "/tmp/repo" "/etc/x" = "/etc/x"
  /\ Py.path_join "a/" "b" = "a/b" /\ Py.path_join "" "a" = "a".
Proof. repeat split; reflexivity. Qed.

(** ** Facts about the text primitives *)

Module PyFacts.
Import Py.

Lemma append_nil_r s : s ++ "" = s.
Proof.
  induction s as [|c s IH]; [done|].
  change (String c (s ++ "") = String c s). by rewrite IH.
Qed.

Lemma append_assoc s t u : (s ++ t) ++ u = s ++ t ++ u.
Proof.
  induction s as [|c s IH]; [done|].
  change (String c ((s ++ t) ++ u) = String c (s ++ t ++ u)). by rewrite IH.
Qed.

Lemma ord_digit_char d : 0 <= d < 10 -> ord (digit_char d) = 48 + d.
Proof.
  intros Hd. unfold ord, digit_char.
  rewrite N_ascii_embedding by lia. lia.
Qed.

Lemma isdigit_digit_char d : 0 <= d < 10 -> isdigit (digit_char d) = true.
Proof.
  intros Hd. unfold isdigit. rewrite ord_digit_char by done.
  apply andb_true_intro; split; apply Z.leb_le; lia.
Qed.

Lemma digit_value_digit_char d : 0 <= d < 10 -> digit_value (digit_char d) = d.
Proof. intros Hd. unfold digit_value. rewrite ord_digit_char by done. lia. Qed.

Lemma isdigit_not_int_space c : isdigit c = true -> int_space c = false.
Proof.
  unfold isdigit, int_space. intros [H1 H2]%andb_prop.
  apply Z.leb_le in H1. apply Z.leb_le in H2.
  repeat (apply orb_false_intro);
    try apply andb_false_intro2; try apply Z.leb_gt; try apply Z.eqb_neq; lia.
Qed.

Lemma isdigit_not_sign c :
  isdigit c = true -> Ascii.eqb c "+" = false /\ Ascii.eqb c "-" = false.
Proof.
  unfold isdigit. intros [H1 H2]%andb_prop.
  apply Z.leb_le in H1. apply Z.leb_le in H2.
  split; apply Ascii.eqb_neq; intros ->; vm_compute in H1; by apply H1.
Qed.

Lemma scan_digits_cons c a s :
  isdigit c = true ->
  scan_digits a (String c s) = scan_digits (10 * a + digit_value c) s.
Proof. intros Hc. simpl. by rewrite Hc. Qed.

(** Reading back the digits written for [n] shifts the accumulator by
    their number and adds [n]. *)
Lemma scan_digits_of fuel : forall n acc,
  0 <= n < 10 ^ (Z.of_nat fuel + 1) ->
  exists k, 0 <= k /\
    forall a, scan_digits a (digits_of fuel n acc) = scan_digits (a * 10 ^ k + n) acc.
Proof.
  assert (Hone : forall n acc, 0 <= n < 10 -> forall a,
    scan_digits a (String (digit_char (n mod 10)) acc) = scan_digits (a * 10 ^ 1 + n) acc).
  { intros n acc Hn a. rewrite Z.mod_small by done.
    rewrite scan_digits_cons by (by apply isdigit_digit_char).
    rewrite digit_value_digit_char by done. f_equal. lia. }
  induction fuel as [|fuel IH]; intros n acc Hn.
  - exists 1. split; [lia|]. intros a. simpl. apply Hone. simpl in Hn. lia.
  - simpl digits_of. destruct (n <? 10) eqn:Hlt.
    + exists 1. split; [lia|]. intros a. apply Hone. apply Z.ltb_lt in Hlt. lia.
    + apply Z.ltb_ge in Hlt.
      destruct (IH (n / 10) (String (digit_char (n mod 10)) acc)) as (k & Hk & IHk).
      { split; [apply Z.div_pos; lia|].
        apply Z.div_lt_upper_bound; [lia|].
        replace (Z.of_nat (S fuel) + 1) with (Z.succ (Z.of_nat fuel + 1)) in Hn by lia.
        rewrite Z.pow_succ_r in Hn by lia. lia. }
      exists (k + 1). split; [lia|]. intros a. rewrite IHk.
      assert (Hm := Z.mod_pos_bound n 10 ltac:(lia)).
      rewrite scan_digits_cons by (by apply isdigit_digit_char).
      rewrite digit_value_digit_char by done. f_equal.
      rewrite Z.pow_add_r by lia.
      pose proof (Z.div_mod n 10 ltac:(lia)). lia.
Qed.

Lemma digits_of_starts_with_digit fuel : forall n acc,
  0 <= n -> starts_with_digit (digits_of fuel n acc) = true.
Proof.
  induction fuel as [|fuel IH]; intros n acc Hn; simpl.
  - apply isdigit_digit_char, Z.mod_pos_bound. lia.
  - destruct (n <? 10).
    + apply isdigit_digit_char, Z.mod_pos_bound. lia.
    + apply IH, Z.div_pos; lia.
Qed.

Lemma log2_fuel n : 0 <= n -> n < 10 ^ (Z.of_nat (Z.to_nat (Z.log2 n)) + 1).
Proof.
  intros Hn. rewrite Z2Nat.id by apply Z.log2_nonneg.
  destruct (Z.eq_dec n 0) as [->|Hne]; [done|].
  pose proof (Z.log2_spec n ltac:(lia)) as [_ Hup].
  eapply Z.lt_le_trans; [exact Hup|].
  unfold Z.succ. apply Z.pow_le_mono_l.
  pose proof (Z.log2_nonneg n). lia.
Qed.

Lemma parse_magnitude_str_nat n : 0 <= n -> parse_magnitude (str_nat n) = Some n.
Proof.
  intros Hn. unfold parse_magnitude, str_nat.
  rewrite digits_of_starts_with_digit by done.
  destruct (scan_digits_of (Z.to_nat (Z.log2 n)) n "") as (k & _ & Hk).
  { split; [done|]. by apply log2_fuel. }
  rewrite Hk. simpl. f_equal.
Qed.

Lemma int_starts_with_digit s :
  starts_with_digit s = true -> int s = parse_magnitude s.
Proof.
  destruct s as [|c s]; [done|]. simpl. intros Hc. unfold int. simpl.
  rewrite (isdigit_not_int_space c Hc).
  by destruct (isdigit_not_sign c Hc) as [-> ->].
Qed.

(** [int(str(z)) == z]: what [str] writes is a numeral [int] reads back. *)
Lemma int_str z : int (str z) = Some z.
Proof.
  unfold str. destruct (z <? 0) eqn:Hz.
  - apply Z.ltb_lt in Hz. unfold int. simpl.
    rewrite parse_magnitude_str_nat by lia. simpl. f_equal. lia.
  - apply Z.ltb_ge in Hz. rewrite int_starts_with_digit.
    + by apply parse_magnitude_str_nat.
    + by apply digits_of_starts_with_digit.
Qed.

Lemma isdigit_not_isspace c : isdigit c = true -> isspace c = false.
Proof.
  unfold isdigit, isspace. intros [H1 H2]%andb_prop.
  apply Z.leb_le in H1. apply Z.leb_le in H2.
  repeat (apply orb_false_intro);
    try (apply andb_false_intro1; apply Z.leb_gt; lia);
    try apply Z.eqb_neq; lia.
Qed.

Lemma rstrip_by_free f s : free_of f s = true -> rstrip_by f s = s.
Proof.
  induction s as [|c s IH]; [done|]. simpl.
  intros [Hc Hs]%andb_prop. rewrite (IH Hs).
  apply negb_true_iff in Hc. rewrite Hc. by destruct s.
Qed.

Lemma lstrip_by_free f s : free_of f s = true -> lstrip_by f s = s.
Proof.
  destruct s as [|c s]; [done|]. simpl. intros [Hc _]%andb_prop.
  apply negb_true_iff in Hc. by rewrite Hc.
Qed.

Lemma digits_of_free fuel : forall n acc,
  0 <= n -> free_of isspace acc = true ->
  free_of isspace (digits_of fuel n acc) = true.
Proof.
  assert (Hone : forall n acc, 0 <= n -> free_of isspace acc = true ->
            free_of isspace (String (digit_char (n mod 10)) acc) = true).
  { intros n acc Hn Hacc. simpl. rewrite Hacc.
    rewrite isdigit_not_isspace; [done|].
    apply isdigit_digit_char, Z.mod_pos_bound. lia. }
  induction fuel as [|fuel IH]; intros n acc Hn Hacc; simpl digits_of.
  - by apply Hone.
  - destruct (n <? 10); [by apply Hone|].
    apply IH; [apply Z.div_pos; lia|by apply Hone].
Qed.

Lemma str_free z : free_of isspace (str z) = true.
Proof.
  unfold str, str_nat. destruct (z <? 0) eqn:Hz.
  - apply Z.ltb_lt in Hz. simpl. apply digits_of_free; [lia|done].
  - apply Z.ltb_ge in Hz. by apply digits_of_free.
Qed.

(** [str(z).strip() == str(z)] *)
Lemma strip_str z : strip (str z) = str z.
Proof.
  unfold strip. rewrite lstrip_by_free by apply str_free.
  apply rstrip_by_free, str_free.
Qed.

(** Undoing the escapes gives the text back. *)
Lemma json_unescape_escape_char c rest :
  json_unescape (json_escape_char c ++ rest)
  = String c <$> json_unescape rest.
Proof.
  destruct c as [[] [] [] [] [] [] [] []];
    match goal with
    | |- context [json_escape_char ?c] =>
        let e := eval vm_compute in (json_escape_char c) in
        change (json_escape_char c) with e
    end;
    cbv [String.append]; simpl; reflexivity.
Qed.

Lemma json_unescape_escape s : json_unescape (json_escape s) = Some s.
Proof.
  induction s as [|c s IH]; [done|].
  change (json_escape (String c s)) with (json_escape_char c ++ json_escape s).
  by rewrite json_unescape_escape_char, IH.
Qed.

(** Distinct texts have distinct JSON string forms. *)
Lemma json_string_inj s t : json_string s = json_string t -> s = t.
Proof.
  unfold json_string, quoted. intros [= H].
  assert (He : json_escape s = json_escape t).
  { revert H. generalize (json_escape s), (json_escape t).
    intros a. induction a as [|c a IH]; intros [|d b] H; simpl in H.
    - done.
    - injection H as _ H. by destruct b.
    - injection H as _ H. by destruct a.
    - injection H as -> H. f_equal. by apply IH. }
  apply (f_equal json_unescape) in He.
  rewrite !json_unescape_escape in He. by injection He.
Qed.

End PyFacts.

(** ** Running the monad *)

Arguments Py.str : simpl never.
Arguments Py.int : simpl never.
Arguments Py.strip : simpl never.
Arguments Py.path_join : simpl never.
Arguments Py.json_dumps : simpl never.
Arguments Py.join : simpl never.
Arguments String.append : simpl never.

Section Runs.

Context {A B : Type}.

Lemma bind_ok (m : M A) (k : A -> M B) s a s1 :
  m s = (Ok a, s1) -> bind m k s = k a s1.
Proof. unfold bind. by intros ->. Qed.

Lemma bind_raise (m : M A) (k : A -> M B) s e s1 :
  m s = (Raise e, s1) -> bind m k s = (Raise e, s1).
Proof. unfold bind. by intros ->. Qed.

Lemma bind_ok_inv (m : M A) (k : A -> M B) s b s' :
  bind m k s = (Ok b, s') ->
  exists a s1, m s = (Ok a, s1) /\ k a s1 = (Ok b, s').
Proof.
  unfold bind. destruct (m s) as [[a|e] s1]; [eauto|discriminate].
Qed.

Lemma try_except_ok (m : M A) h s a s1 :
  m s = (Ok a, s1) -> try_except m h s = (Ok a, s1).
Proof. unfold try_except. by intros ->. Qed.

Lemma try_except_raise (m : M A) h s e s1 :
  m s = (Raise e, s1) -> try_except m h s = h e s1.
Proof. unfold try_except. by intros ->. Qed.

End Runs.

(** A handler that logs and re-raises lets through exactly the normal
    returns of the body. *)
Lemma try_reraise_ok_inv {A} (m : M A) (h : exn -> M unit) s a s' :
  try_except m (fun e => do h e; raise e) s = (Ok a, s') -> m s = (Ok a, s').
Proof.
  unfold try_except, bind, raise. destruct (m s) as [[a0|e] s1]; [done|].
  by destruct (h e s1) as [[[]|e'] s2].
Qed.

Lemma call_ok w e s :
  fault w e = None ->
  call w e s = (Ok tt, State (fs s) (log s) (trace s ++ [e])).
Proof. unfold call. by intros ->. Qed.

Lemma call_ok_inv w e s u s' :
  call w e s = (Ok u, s') ->
  fault w e = None /\ s' = State (fs s) (log s) (trace s ++ [e]).
Proof. unfold call. destruct (fault w e); [discriminate|]. by intros [= _ <-]. Qed.

Lemma call_raise w e s x :
  fault w e = Some x ->
  call w e s = (Raise x, State (fs s) (log s) (trace s ++ [e])).
Proof. unfold call. by intros ->. Qed.

(** Symbolic execution of a run held in a hypothesis: unfold the monad,
    then split on every outside answer the run consults, dropping the
    branches that end in an exception. *)
Ltac unfold_run H :=
  unfold try_except, with_, bind, ret, raise, logger, get_fs, set_fs,
    path_exists, call in H; simpl in H.

Ltac split_run H :=
  repeat match type of H with
    | context [match ?x with _ => _ end] =>
        lazymatch x with
        | context [match _ with _ => _ end] => fail
        | _ => destruct x eqn:?; simpl in H; try discriminate H
        end
    end.

Ltac unfold_run_goal :=
  unfold try_except, with_, bind, ret, raise, logger, get_fs, set_fs,
    path_exists, call; simpl.

(** Forward execution under a list of calls known not to raise. *)
Ltac feed_faults Hnf :=
  repeat match goal with
    | |- context [fault ?w ?e] =>
        rewrite (Hnf e) by (simpl; auto 20); simpl
    end.

Ltac split_run_all H :=
  repeat match type of H with
    | context [match ?x with _ => _ end] =>
        lazymatch x with
        | context [match _ with _ => _ end] => fail
        | _ => destruct x eqn:?; simpl in H
        end
    end.

Ltac no_fault_from_context :=
  let e := fresh "e" in
  let He := fresh "He" in
  intros e He; simpl in He; intuition (subst; done).

(** ** The counter store *)

Arguments remove_tree : simpl never.

Ltac tidy_trace :=
  repeat rewrite <- app_assoc; simpl.

(** Every normal return of [update_counter]: the value, the file, the log
    and the calls made are determined by what was at the path. *)
Lemma update_counter_ok_inv w p s c s' :
  update_counter w p s = (Ok c, s') ->
  let o := fs s !! p in
  o <> Some Dir
  /\ c = next_counter o
  /\ no_fault w (counter_events p o c)
  /\ s' = State (<[p := File (Py.str c)]> (fs s))
                (log s ++ counter_warning o)
                (trace s ++ counter_events p o c).
Proof.
  intros H. apply try_reraise_ok_inv in H.
  unfold update_counter, open_read, read, open_write, write, close in H.
  unfold_run H. split_run H; simplify_eq; cbn zeta;
    repeat match goal with
      | H : ?o = _ |- context [?o] => rewrite H
      end; unfold counter_warning, next_counter, counter_events;
    repeat match goal with
      | H : Py.int _ = _ |- _ => rewrite H
      end;
    (split; [done|split; [done|split]]);
    try (intros e He; simpl in He; intuition (subst; done));
    rewrite ?insert_insert_eq, ?app_nil_r; tidy_trace; try done.
Qed.

(** Conversely, when the path is not a directory and none of the file
    operations raises, [update_counter] returns. *)
Lemma update_counter_run w p s :
  let o := fs s !! p in
  let c := next_counter o in
  o <> Some Dir ->
  no_fault w (counter_events p o c) ->
  update_counter w p s =
    (Ok c, State (<[p := File (Py.str c)]> (fs s))
                 (log s ++ counter_warning o)
                 (trace s ++ counter_events p o c)).
Proof.
  intros o c Hdir Hnf. subst c o.
  unfold update_counter, open_read, read, open_write, write, close.
  unfold_run_goal. unfold no_fault in Hnf.
  destruct (fs s !! p) as [[text|]|] eqn:Ho; [| done |].
  - simpl in Hnf. unfold counter_warning, next_counter.
    simpl. feed_faults Hnf. rewrite Ho. simpl. feed_faults Hnf.
    destruct (Py.int (Py.strip text)) as [n|] eqn:Hint; simpl;
      simpl in Hnf; feed_faults Hnf; rewrite Ho; simpl; feed_faults Hnf;
      rewrite ?insert_insert_eq, ?app_nil_r; tidy_trace; done.
  - simpl in *. feed_faults Hnf. rewrite Ho. simpl. feed_faults Hnf.
    rewrite ?insert_insert_eq, ?app_nil_r; tidy_trace; done.
Qed.

(** ** The secret resolver *)

Lemma get_github_token_ok_inv w s token s' :
  get_github_token w s = (Ok token, s') ->
  exists secret_id,
    environ w !! "AWS_SECRET_ID" = Some secret_id
    /\ secret_string w secret_id = Some token
    /\ no_fault w (secret_events secret_id)
    /\ s' = State (fs s) (log s) (trace s ++ secret_events secret_id).
Proof.
  intros H. unfold get_github_token, environ_item in H.
  destruct (environ w !! "AWS_SECRET_ID") as [secret_id|] eqn:Hid.
  - unfold_run H. split_run H. simplify_eq. exists secret_id.
    repeat split; [done|no_fault_from_context|]. by tidy_trace.
  - unfold_run H. split_run H.
Qed.

(** ** The repository provisioner *)

Lemma setup_repo_ok_inv w token url branch s repo s' :
  setup_repo w token url branch s = (Ok repo, s') ->
  let there := dir_exists (fs s) "/tmp/repo" in
  repo = {| working_dir := "/tmp/repo" |}
  /\ no_fault w (repo_events there url branch)
  /\ s' = State (provisioned w url branch (fs s))
                (log s ++ repo_log there)
                (trace s ++ repo_events there url branch).
Proof.
  intros H. apply try_reraise_ok_inv in H.
  unfold setup_repo, run_rm_rf, clone_from, repo_dir in H.
  unfold provisioned, dir_exists.
  unfold_run H. split_run H; simplify_eq; cbn zeta;
    (split; [done|split; [no_fault_from_context|]]);
    unfold repo_log; simpl; tidy_trace; done.
Qed.

(** Whatever the outcome, a directory left by an earlier run is removed
    before any other call is made, and nothing follows a failed removal. *)
Lemma setup_repo_cleanup_first w token url branch s :
  let s' := (setup_repo w token url branch s).2 in
  let rm := ERun ["rm"; "-rf"; "/tmp/repo"] in
  match fs s !! "/tmp/repo" with
  | Some _ =>
      match fault w rm with
      | Some _ => trace s' = (trace s ++ [rm])%list
      | None => exists rest,
          trace s' = (trace s ++ rm :: ECloneFrom url "/tmp/repo" branch :: rest)%list
      end
  | None =>
      exists rest,
        trace s' = (trace s ++ ECloneFrom url "/tmp/repo" branch :: rest)%list
  end.
Proof.
  cbn zeta.
  destruct (setup_repo w token url branch s) as [r s'] eqn:H. simpl.
  unfold setup_repo, run_rm_rf, clone_from, repo_dir in H.
  unfold_run H.
  destruct (fs s !! "/tmp/repo") eqn:Hdir; simpl in H.
  - destruct (fault w (ERun ["rm"; "-rf"; "/tmp/repo"])) eqn:Hrm; simpl in H.
    + by simplify_eq.
    + split_run_all H; simplify_eq; simpl; tidy_trace; eauto.
  - split_run_all H; simplify_eq; simpl; tidy_trace; eauto.
Qed.

Lemma get_github_token_run w s secret_id token :
  environ w !! "AWS_SECRET_ID" = Some secret_id ->
  secret_string w secret_id = Some token ->
  no_fault w (secret_events secret_id) ->
  get_github_token w s =
    (Ok token, State (fs s) (log s) (trace s ++ secret_events secret_id)).
Proof.
  intros Hid Hsecret Hnf. unfold get_github_token, environ_item.
  rewrite Hid. unfold_run_goal. unfold no_fault in Hnf. simpl in Hnf.
  feed_faults Hnf. rewrite Hsecret. simpl. by tidy_trace.
Qed.

Lemma setup_repo_run w token url branch s :
  let there := dir_exists (fs s) "/tmp/repo" in
  no_fault w (repo_events there url branch) ->
  setup_repo w token url branch s =
    (Ok {| working_dir := "/tmp/repo" |},
     State (provisioned w url branch (fs s))
           (log s ++ repo_log there)
           (trace s ++ repo_events there url branch)).
Proof.
  cbn zeta. intros Hnf.
  unfold setup_repo, run_rm_rf, clone_from, repo_dir, provisioned, dir_exists,
    repo_log in *.
  unfold_run_goal. unfold no_fault in Hnf.
  destruct (fs s !! "/tmp/repo"); simpl in *; feed_faults Hnf;
    tidy_trace; done.
Qed.

(** ** The entry point *)

Lemma environ_item_ok_inv w name s v s' :
  environ_item w name s = (Ok v, s') -> environ w !! name = Some v /\ s' = s.
Proof.
  unfold environ_item. destruct (environ w !! name); [|discriminate].
  by intros [= -> ->].
Qed.

(** Every normal return of the [try] block: the configuration was
    complete, every call of the run went through, and response, files, log
    and calls are those of the full sequence. *)
Lemma lambda_steps_ok_inv w s r s' :
  lambda_steps w s = (Ok r, s') ->
  exists github_repo file_path branch secret_id token,
    missing_vars w = []
    /\ environ w !! "GITHUB_REPO" = Some github_repo
    /\ environ w !! "FILE_PATH" = Some file_path
    /\ environ w !! "BRANCH" = Some branch
    /\ environ w !! "AWS_SECRET_ID" = Some secret_id
    /\ secret_string w secret_id = Some token
    /\ let url := authenticated_url token github_repo in
       let path := Py.path_join "/tmp/repo" file_path in
       let there := dir_exists (fs s) "/tmp/repo" in
       let cloned := provisioned w url branch (fs s) in
       let o := cloned !! path in
       let counter := next_counter o in
       o <> Some Dir
       /\ no_fault w (secret_events secret_id ++ repo_events there url branch
                      ++ counter_events path o counter
                      ++ publish_events path counter)
       /\ r = success_response counter github_repo branch
       /\ s' = State (<[path := File (Py.str counter)]> cloned)
                     (log s ++ repo_log there ++ counter_warning o ++ publish_log)
                     (trace s ++ secret_events secret_id
                      ++ repo_events there url branch
                      ++ counter_events path o counter
                      ++ publish_events path counter).
Proof.
  intros H. unfold lambda_steps in H.
  apply bind_ok_inv in H as ([] & s0 & Hmiss & H).
  destruct (missing_vars w) eqn:Hmv; [|discriminate]. injection Hmiss as <-.
  apply bind_ok_inv in H as (github_repo & ? & [Hrepo ->]%environ_item_ok_inv & H).
  apply bind_ok_inv in H as (file_path & ? & [Hpath ->]%environ_item_ok_inv & H).
  apply bind_ok_inv in H as (branch & ? & [Hbranch ->]%environ_item_ok_inv & H).
  apply bind_ok_inv in H as (token & s1 & Htok & H).
  apply get_github_token_ok_inv in Htok as (secret_id & Hid & Hsecret & Hnf1 & ->).
  apply bind_ok_inv in H as (repo & s2 & Hsetup & H).
  apply setup_repo_ok_inv in Hsetup as (_ & Hnf2 & ->).
  apply bind_ok_inv in H as (counter & s3 & Hcnt & H).
  apply update_counter_ok_inv in Hcnt as (Hdir & Hc & Hnf3 & ->).
  simpl in Hdir, Hc, Hnf3.
  unfold_run H. split_run H. simplify_eq.
  exists github_repo, file_path, branch, secret_id, token.
  repeat (split; [done|]). split; [|split].
  - intros e He. rewrite !in_app_iff in He.
    destruct He as [He|[He|[He|He]]]; auto.
    simpl in He. intuition (subst; done).
  - done.
  - unfold publish_log, publish_events. f_equal; by rewrite <- !app_assoc.
Qed.

Lemma lambda_handler_ok w s r s1 :
  lambda_steps w s = (Ok r, s1) -> lambda_handler w s = (Ok r, s1).
Proof. intros H. unfold lambda_handler. by rewrite (try_except_ok _ _ _ _ _ H). Qed.

Lemma lambda_handler_raise w s e s1 :
  lambda_steps w s = (Raise e, s1) ->
  lambda_handler w s =
    (Ok (failure_response e),
     State (fs s1)
           (log s1 ++ [(ERROR, "Lambda execution failed: " ++ exn_str e)])
           (trace s1)).
Proof.
  intros H. unfold lambda_handler. by rewrite (try_except_raise _ _ _ _ _ H).
Qed.

(** A response with status 200 can only come out of the [try] block. *)
Lemma lambda_handler_200_inv w s r s' :
  lambda_handler w s = (Ok r, s') -> statusCode r = 200 ->
  lambda_steps w s = (Ok r, s').
Proof.
  intros H Hcode. destruct (lambda_steps w s) as [[r0|e] s1] eqn:Hsteps.
  - rewrite (lambda_handler_ok _ _ _ _ Hsteps) in H. by simplify_eq.
  - rewrite (lambda_handler_raise _ _ _ _ Hsteps) in H. by simplify_eq.
Qed.

Lemma truthy_false o : negb (truthy o) = true <-> o = None \/ o = Some "".
Proof.
  destruct o as [[|c s]|]; simpl; split; auto; try discriminate.
  - intros [|]; discriminate.
Qed.

Lemma missing_vars_spec w var :
  In var (missing_vars w) <-> In var required_env_vars /\ unset_or_empty w var.
Proof.
  unfold missing_vars, unset_or_empty. rewrite filter_In.
  by rewrite truthy_false.
Qed.

Lemma occurs_in_join sep l var : In var l -> occurs_in var (Py.join sep l).
Proof.
  induction l as [|x l IH]; [done|]. intros [->|Hin].
  - destruct l as [|y l].
    + exists "", "". simpl. symmetry. apply PyFacts.append_nil_r.
    + exists "", (sep ++ Py.join sep (y :: l)). done.
  - destruct (IH Hin) as (a & b & Hab).
    destruct l as [|y l]; [done|].
    exists (x ++ sep ++ a), b.
    change (Py.join sep (x :: y :: l)) with (x ++ sep ++ Py.join sep (y :: l)).
    rewrite Hab. by rewrite !PyFacts.append_assoc.
Qed.

Lemma occurs_in_prefixed pre sub s : occurs_in sub s -> occurs_in sub (pre ++ s).
Proof.
  intros (a & b & ->). exists (pre ++ a), b. by rewrite !PyFacts.append_assoc.
Qed.

Lemma path_join_absolute dir p :
  Py.startswith p "/" = true -> Py.path_join dir p = p.
Proof. unfold Py.path_join. by intros ->. Qed.

Lemma missing_vars_nil_inv w :
  missing_vars w = [] ->
  forall var, In var required_env_vars ->
    exists v, environ w !! var = Some v /\ v <> "".
Proof.
  intros Hnil var Hvar.
  destruct (environ w !! var) as [v|] eqn:Hv.
  - exists v. split; [done|]. intros ->.
    assert (Hin : In var (missing_vars w))
      by (apply missing_vars_spec; split; [done|by right]).
    by rewrite Hnil in Hin.
  - assert (Hin : In var (missing_vars w))
      by (apply missing_vars_spec; split; [done|by left]).
    by rewrite Hnil in Hin.
Qed.

(** The run goes all the way when the configuration is complete, the
    secret is there, the counter path is not a directory, and no call of
    the expected sequence raises. *)
Lemma lambda_steps_run w s github_repo file_path branch secret_id token :
  missing_vars w = [] ->
  environ w !! "GITHUB_REPO" = Some github_repo ->
  environ w !! "FILE_PATH" = Some file_path ->
  environ w !! "BRANCH" = Some branch ->
  environ w !! "AWS_SECRET_ID" = Some secret_id ->
  secret_string w secret_id = Some token ->
  let url := authenticated_url token github_repo in
  let path := Py.path_join "/tmp/repo" file_path in
  let there := dir_exists (fs s) "/tmp/repo" in
  let cloned := provisioned w url branch (fs s) in
  let o := cloned !! path in
  let counter := next_counter o in
  o <> Some Dir ->
  no_fault w (secret_events secret_id ++ repo_events there url branch
              ++ counter_events path o counter
              ++ publish_events path counter) ->
  lambda_steps w s =
    (Ok (success_response counter github_repo branch),
     State (<[path := File (Py.str counter)]> cloned)
           (log s ++ repo_log there ++ counter_warning o ++ publish_log)
           (trace s ++ secret_events secret_id
            ++ repo_events there url branch
            ++ counter_events path o counter
            ++ publish_events path counter)).
Proof.
  intros Hmv Hrepo Hpath Hbranch Hid Hsecret. cbn zeta. intros Hdir Hnf.
  unfold lambda_steps. rewrite Hmv.
  assert (Hsub : forall l, (forall e, In e l -> In e
              (secret_events secret_id
               ++ repo_events (dir_exists (fs s) "/tmp/repo")
                    (authenticated_url token github_repo) branch
               ++ counter_events (Py.path_join "/tmp/repo" file_path)
                    (provisioned w (authenticated_url token github_repo)
                       branch (fs s) !! Py.path_join "/tmp/repo" file_path)
                    (next_counter
                       (provisioned w (authenticated_url token github_repo)
                          branch (fs s) !! Py.path_join "/tmp/repo" file_path))
               ++ publish_events (Py.path_join "/tmp/repo" file_path)
                    (next_counter
                       (provisioned w (authenticated_url token github_repo)
                          branch (fs s) !! Py.path_join "/tmp/repo" file_path))))
            -> no_fault w l).
  { intros l Hl e He. by apply Hnf, Hl. }
  erewrite bind_ok; [|reflexivity].
  unfold environ_item at 1. rewrite Hrepo. erewrite bind_ok; [|reflexivity].
  unfold environ_item at 1. rewrite Hpath. erewrite bind_ok; [|reflexivity].
  unfold environ_item at 1. rewrite Hbranch. erewrite bind_ok; [|reflexivity].
  erewrite bind_ok;
    [|apply (get_github_token_run w s secret_id token Hid Hsecret);
      apply Hsub; intros e He; rewrite !in_app_iff; auto].
  erewrite bind_ok;
    [|apply setup_repo_run; apply Hsub; intros e He;
      rewrite !in_app_iff; auto].
  erewrite bind_ok;
    [|apply update_counter_run;
      [exact Hdir|apply Hsub; intros e He; rewrite !in_app_iff; auto]].
  simpl fs. simpl log. simpl trace.
  assert (Hpub : no_fault w
            (publish_events (Py.path_join "/tmp/repo" file_path)
               (next_counter
                  (provisioned w (authenticated_url token github_repo) branch
                     (fs s) !! Py.path_join "/tmp/repo" file_path))))
    by (apply Hsub; intros e He; rewrite !in_app_iff; auto).
  unfold no_fault, publish_events in Hpub. simpl in Hpub.
  unfold_run_goal. feed_faults Hpub.
  unfold publish_log, publish_events. f_equal. f_equal; by rewrite <- !app_assoc.
Qed.

(** ** The counter store: statements *)

Lemma lstrip_blank text :
  Py.lstrip_by Py.isspace text = "" ->
  Py.int (Py.strip text) = None.
Proof. unfold Py.strip. by intros ->. Qed.



(** C2. When the file holds text that, stripped, does not read as an
    integer, and the file operations go through, [update_counter] warns,
    returns 1 and leaves the file holding "1". *)
Theorem update_counter_resets w p s text :
  fs s !! p = Some (File text) ->
  Py.int (Py.strip text) = None ->
  no_fault w (read_events p ++ write_events p 1) ->
  update_counter w p s =
    (Ok 1,
     State (<[p := File "1"]> (fs s))
           (log s ++ [(WARNING, "Invalid counter value in file: "
                                ++ Py.strip text ++ ", resetting to 1")])
           (trace s ++ read_events p ++ write_events p 1)).
Proof.
  intros Hfile Hint Hnf.
  pose proof (update_counter_run w p s) as Hrun. cbn zeta in Hrun.
  rewrite Hfile in Hrun. unfold next_counter, counter_warning in Hrun.
  rewrite Hint in Hrun. by rewrite Hrun.
Qed.

Lemma update_counter_resets_witness :
  let w := Sample.world_with None in
  let s := Sample.disk_holding "" in
  Py.int (Py.strip "") = None
  /\ update_counter w Sample.counter_path s =
       (Ok 1,
        State (<[Sample.counter_path := File "1"]> (fs s))
              [(WARNING, "Invalid counter value in file: , resetting to 1")]
              (read_events Sample.counter_path
               ++ write_events Sample.counter_path 1)).
Proof.
  cbn zeta. split; [reflexivity|].
  apply (update_counter_resets (Sample.world_with None) Sample.counter_path
           (Sample.disk_holding "") "");
    [reflexivity | reflexivity | intros e _; reflexivity].
Defined.

(** C3. When nothing exists at the path and the file can be written,
    [update_counter] creates it holding "1" and returns 1, without reading
    anything. *)
Theorem update_counter_creates w p s :
  fs s !! p = None ->
  no_fault w (write_events p 1) ->
  update_counter w p s =
    (Ok 1,
     State (<[p := File "1"]> (fs s)) (log s) (trace s ++ write_events p 1)).
Proof.
  intros Hfile Hnf.
  pose proof (update_counter_run w p s) as Hrun. cbn zeta in Hrun.
  rewrite Hfile in Hrun. simpl in Hrun. rewrite Hrun; [|done|exact Hnf].
  by rewrite app_nil_r.
Qed.

Lemma update_counter_creates_witness :
  let w := Sample.world_with None in
  let s := Sample.empty_disk in
  fs s !! Sample.counter_path = None
  /\ update_counter w Sample.counter_path s =
       (Ok 1,
        State {[ Sample.counter_path := File "1" ]} []
              (write_events Sample.counter_path 1)).
Proof.
  cbn zeta. split; [reflexivity|].
  apply (update_counter_creates (Sample.world_with None) Sample.counter_path
           Sample.empty_disk); [reflexivity | intros e _; reflexivity].
Defined.

(** C6, as stated, fails: a file holding "-5" is read as -5, and the value
    returned and written is -4. *)
Lemma update_counter_negative_counterexample :
  update_counter (Sample.world_with None) Sample.counter_path
      (Sample.disk_holding "-5")
    = (Ok (-4),
       State {[ "/tmp/repo" := Dir; Sample.counter_path := File "-4" ]} []
             (read_events Sample.counter_path
              ++ write_events Sample.counter_path (-4)))
  /\ ~ 0 <= -4.
Proof. split; [by vm_compute|lia]. Qed.

(** C6, amended. The value [update_counter] returns is the one it leaves
    in the file, and it is non-negative exactly when the path was absent,
    held unreadable text, or held an integer not below -1. *)
Theorem update_counter_nonnegative w p s c s' :
  update_counter w p s = (Ok c, s') ->
  fs s' !! p = Some (File (Py.str c))
  /\ (0 <= c <->
      forall text n,
        fs s !! p = Some (File text) -> Py.int (Py.strip text) = Some n ->
        -1 <= n).
Proof.
  intros (Hdir & -> & _ & ->)%update_counter_ok_inv. simpl.
  split; [apply lookup_insert_eq|].
  unfold next_counter.
  destruct (fs s !! p) as [[text|]|]; [|done|].
  - destruct (Py.int (Py.strip text)) as [n|] eqn:Hint.
    + split.
      * intros Hc text' n' [= <-] Hn'. rewrite Hint in Hn'. simplify_eq. lia.
      * intros Hall. specialize (Hall text n eq_refl Hint). lia.
    + split; [|lia]. intros _ text' n' [= <-] Hn'. congruence.
  - split; [|lia]. intros _ text' n' [=].
Qed.

Lemma update_counter_nonnegative_witness :
  let w := Sample.world_with None in
  let s := Sample.disk_holding "-1" in
  let s' := (update_counter w Sample.counter_path s).2 in
  update_counter w Sample.counter_path s = (Ok 0, s')
  /\ fs s' !! Sample.counter_path = Some (File "0")
  /\ 0 <= 0.
Proof.
  cbn zeta.
  assert (Hrun : update_counter (Sample.world_with None) Sample.counter_path
                   (Sample.disk_holding "-1")
                 = (Ok 0, (update_counter (Sample.world_with None)
                             Sample.counter_path
                             (Sample.disk_holding "-1")).2))
    by (vm_compute; reflexivity).
  split; [exact Hrun|].
  destruct (update_counter_nonnegative _ _ _ _ _ Hrun) as [Hfile Hsign].
  split; [exact Hfile|]. apply Hsign.
  intros text n Htext Hn. vm_compute in Htext. injection Htext as <-.
  vm_compute in Hn. injection Hn as <-. lia.
Defined.

(** ** The provisioner and the entry point: statements *)



(** C5. When one of the four required settings is unset or empty,
    [lambda_handler] answers 500 without having made any outside call or
    touched any file; the error text lists the missing names, each of
    them occurring in it, and only those. *)
Theorem lambda_handler_missing_settings w s :
  (exists var, In var required_env_vars /\ unset_or_empty w var) ->
  let text := "Missing required environment variables: "
              ++ Py.join ", " (missing_vars w) in
  lambda_handler w s =
    (Ok {| statusCode := 500; body := Py.json_dumps [("error", text)] |},
     State (fs s) (log s ++ [(ERROR, "Lambda execution failed: " ++ text)])
           (trace s))
  /\ (forall var, In var required_env_vars -> unset_or_empty w var ->
        occurs_in var text)
  /\ (forall var, In var (missing_vars w) <->
        In var required_env_vars /\ unset_or_empty w var).
Proof.
  intros (var & Hreq & Hunset). cbn zeta. split; [|split].
  - assert (Hin : In var (missing_vars w)) by by apply missing_vars_spec.
    rewrite (lambda_handler_raise w s
               (Exn ValueError
                  ("Missing required environment variables: "
                   ++ Py.join ", " (missing_vars w))) s); [done|].
    unfold lambda_steps. apply bind_raise.
    by destruct (missing_vars w).
  - intros v Hv Hu. apply occurs_in_prefixed, occurs_in_join.
    by apply missing_vars_spec.
  - apply missing_vars_spec.
Qed.

Lemma lambda_handler_missing_settings_witness :
  let text := "Missing required environment variables: FILE_PATH, BRANCH" in
  unset_or_empty Sample.misconfigured "BRANCH"
  /\ lambda_handler Sample.misconfigured Sample.stale_disk =
       (Ok {| statusCode := 500; body := Py.json_dumps [("error", text)] |},
        State (fs Sample.stale_disk)
              [(ERROR, "Lambda execution failed: " ++ text)] [])
  /\ occurs_in "BRANCH" text.
Proof.
  cbn zeta.
  assert (Hbranch : unset_or_empty Sample.misconfigured "BRANCH")
    by (left; reflexivity).
  split; [exact Hbranch|].
  destruct (lambda_handler_missing_settings Sample.misconfigured
              Sample.stale_disk) as (Hrun & Hlisted & _).
  - exists "BRANCH". split; [simpl; tauto|exact Hbranch].
  - split; [exact Hrun|]. apply (Hlisted "BRANCH"); [simpl; tauto|exact Hbranch].
Defined.


(** C9. A run of [lambda_handler] that answers 200 has made exactly these
    calls, in this order: the secret is fetched; "/tmp/repo" is removed if
    it was there; the branch is cloned from the URL built around the
    token and the clone's commit identity is set; the counter file at the
    joined path is read if the clone has it, then written with the new
    value; that one path is staged; one commit is made whose message ends
    with the new value; the remote "origin" is looked up and pushed to. *)
Theorem lambda_handler_success_sequence w s r s' :
  lambda_handler w s = (Ok r, s') ->
  statusCode r = 200 ->
  exists github_repo file_path branch secret_id token counter,
    environ w !! "GITHUB_REPO" = Some github_repo
    /\ environ w !! "FILE_PATH" = Some file_path
    /\ environ w !! "BRANCH" = Some branch
    /\ environ w !! "AWS_SECRET_ID" = Some secret_id
    /\ secret_string w secret_id = Some token
    /\ let url := "https://" ++ token ++ "@github.com/" ++ github_repo ++ ".git" in
       let path := Py.path_join "/tmp/repo" file_path in
       let cloned := provisioned w url branch (fs s) in
       counter = next_counter (cloned !! path)
       /\ trace s' =
            (trace s
             ++ [EBotoClient "secretsmanager"; EGetSecretValue secret_id]
             ++ (if dir_exists (fs s) "/tmp/repo"
                 then [ERun ["rm"; "-rf"; "/tmp/repo"]] else [])
             ++ [ECloneFrom url "/tmp/repo" branch;
                 EConfigWriter "repository";
                 ESetValue "user" "name" "Commitron Bot";
                 ESetValue "user" "email" "bot@commitron.com";
                 EConfigRelease]
             ++ (match cloned !! path with
                 | Some _ => [EOpen path "r"; ERead path; EClose path]
                 | None => []
                 end)
             ++ [EOpen path "w"; EWrite path (Py.str counter); EClose path;
                 EGitAdd path;
                 EIndexCommit ("Automated commit: Increment counter to "
                               ++ Py.str counter);
                 ERemote "origin";
                 EPush "origin"])%list
       /\ fs s' = <[path := File (Py.str counter)]> cloned
       /\ r = success_response counter github_repo branch.
Proof.
  intros Hrun Hcode.
  apply (lambda_handler_200_inv _ _ _ _ Hrun) in Hcode as Hsteps.
  apply lambda_steps_ok_inv in Hsteps
    as (github_repo & file_path & branch & secret_id & token & _ & Hrepo
        & Hpath & Hbranch & Hid & Hsecret & Hrest).
  cbn zeta in Hrest. destruct Hrest as (_ & _ & -> & ->).
  exists github_repo, file_path, branch, secret_id, token.
  eexists. repeat (split; [done|]). cbn zeta.
  split; [|done]. simpl. do 2 f_equal.
  unfold repo_events, cleanup_events, clone_events, counter_events,
    read_events, write_events, publish_events, authenticated_url.
  destruct (provisioned _ _ _ _ !! _); by rewrite <- ?app_assoc.
Qed.

Lemma lambda_handler_success_sequence_witness :
  let w := Sample.world_with (Some (" 41 " ++ Sample.newline)) in
  let path := "/tmp/repo/counter.txt" in
  let s' := (lambda_handler w Sample.stale_disk).2 in
  lambda_handler w Sample.stale_disk =
    (Ok (success_response 42 "octo/counter" "main"), s')
  /\ trace s' =
       [EBotoClient "secretsmanager"; EGetSecretValue "commitron/github";
        ERun ["rm"; "-rf"; "/tmp/repo"];
        ECloneFrom "https://ghp_s3cr3t@github.com/octo/counter.git"
          "/tmp/repo" "main";
        EConfigWriter "repository";
        ESetValue "user" "name" "Commitron Bot";
        ESetValue "user" "email" "bot@commitron.com";
        EConfigRelease;
        EOpen path "r"; ERead path; EClose path;
        EOpen path "w"; EWrite path "42"; EClose path;
        EGitAdd path;
        EIndexCommit "Automated commit: Increment counter to 42";
        ERemote "origin"; EPush "origin"].
Proof.
  cbn zeta.
  assert (Hrun : lambda_handler
                   (Sample.world_with (Some (" 41 " ++ Sample.newline)))
                   Sample.stale_disk
                 = (Ok (success_response 42 "octo/counter" "main"),
                    (lambda_handler
                       (Sample.world_with (Some (" 41 " ++ Sample.newline)))
                       Sample.stale_disk).2))
    by (vm_compute; reflexivity).
  split; [exact Hrun|].
  destruct (lambda_handler_success_sequence _ _ _ _ Hrun eq_refl)
    as (github_repo & file_path & branch & secret_id & token & counter
        & Hrepo & Hpath & Hbranch & Hid & Hsecret & Hrest).
  vm_compute in Hrepo, Hpath, Hbranch, Hid.
  injection Hrepo as <-. injection Hpath as <-. injection Hbranch as <-.
  injection Hid as <-. vm_compute in Hsecret. injection Hsecret as <-.
  cbn zeta in Hrest. destruct Hrest as (-> & Htrace & _).
  rewrite Htrace. vm_compute. reflexivity.
Defined.



(** ** Two runs side by side *)

Section Simulation.

Context {A B : Type}.

Lemma sim_ret (R : A -> A -> Prop) a1 a2 : R a1 a2 -> sim R (ret a1) (ret a2).
Proof. intros HR s1 s2 Hs. by split. Qed.

Lemma sim_raise (R : A -> A -> Prop) e : sim R (raise e) (raise e).
Proof. intros s1 s2 Hs. by split. Qed.

Lemma sim_bind (R : A -> A -> Prop) (R' : B -> B -> Prop) m1 m2 k1 k2 :
  sim R m1 m2 ->
  (forall a1 a2, R a1 a2 -> sim R' (k1 a1) (k2 a2)) ->
  sim R' (bind m1 k1) (bind m2 k2).
Proof.
  intros Hm Hk s1 s2 Hs. unfold bind.
  destruct (Hm s1 s2 Hs) as [Hs' Hr].
  destruct (m1 s1) as [[a1|e1] s1'], (m2 s2) as [[a2|e2] s2'];
    simpl in *; try done.
  by apply Hk.
Qed.

Lemma sim_try_except (R : A -> A -> Prop) m1 m2 h1 h2 :
  sim R m1 m2 ->
  (forall e, sim R (h1 e) (h2 e)) ->
  sim R (try_except m1 h1) (try_except m2 h2).
Proof.
  intros Hm Hh s1 s2 Hs. unfold try_except.
  destruct (Hm s1 s2 Hs) as [Hs' Hr].
  destruct (m1 s1) as [[a1|e1] s1'], (m2 s2) as [[a2|e2] s2'];
    simpl in *; try done.
  subst. by apply Hh.
Qed.

End Simulation.

Lemma sim_with {A B} (R : A -> A -> Prop) (R' : B -> B -> Prop)
    enter1 enter2 leave1 leave2 body1 body2 :
  sim R enter1 enter2 ->
  sim eq leave1 leave2 ->
  (forall a1 a2, R a1 a2 -> sim R' (body1 a1) (body2 a2)) ->
  sim R' (with_ enter1 leave1 body1) (with_ enter2 leave2 body2).
Proof.
  intros Henter Hleave Hbody. unfold with_.
  eapply sim_bind; [exact Henter|]. intros a1 a2 Ha s1 s2 Hs.
  destruct (Hbody a1 a2 Ha s1 s2 Hs) as [Hs' Hr].
  destruct (body1 a1 s1) as [[b1|e1] s1'], (body2 a2 s2) as [[b2|e2] s2'];
    simpl in *; try done.
  - revert s1' s2' Hs'. change (sim R' (do leave1; ret b1) (do leave2; ret b2)).
    eapply sim_bind; [exact Hleave|]. intros _ _ _. by apply sim_ret.
  - subst. revert s1' s2' Hs'.
    change (sim R' (do leave1; raise e2) (do leave2; raise e2)).
    eapply sim_bind; [exact Hleave|]. intros _ _ _. apply sim_raise.
Qed.

Lemma sim_logger l msg : sim eq (logger l msg) (logger l msg).
Proof. intros s1 s2 [Hfs Hlog]. repeat split; simpl; congruence. Qed.

Lemma sim_get_fs : sim eq get_fs get_fs.
Proof. intros s1 s2 [Hfs Hlog]. by repeat split. Qed.

Lemma sim_set_fs f : sim eq (set_fs f) (set_fs f).
Proof. intros s1 s2 [Hfs Hlog]. by repeat split. Qed.

Lemma sim_call w1 w2 e1 e2 :
  fault w1 e1 = fault w2 e2 -> sim eq (call w1 e1) (call w2 e2).
Proof.
  intros Hf s1 s2 [Hfs Hlog]. unfold call. rewrite Hf.
  by destruct (fault w2 e2).
Qed.

Lemma sim_path_exists p : sim eq (path_exists p) (path_exists p).
Proof.
  intros s1 s2 [Hfs Hlog]. unfold path_exists. rewrite Hfs. by repeat split.
Qed.

(** Structural descent through two copies of one program; [leaf] settles
    the outside calls. *)
Ltac sim_solve leaf :=
  lazymatch goal with
  | |- sim _ (bind _ _) (bind _ _) =>
      eapply sim_bind;
        [sim_solve leaf|intros ? ? ?; simplify_eq; sim_solve leaf]
  | |- sim _ (try_except _ _) (try_except _ _) =>
      apply sim_try_except; [sim_solve leaf|intros ?; sim_solve leaf]
  | |- sim _ (with_ _ _ _) (with_ _ _ _) =>
      eapply sim_with;
        [sim_solve leaf|sim_solve leaf
        |intros ? ? ?; simplify_eq; sim_solve leaf]
  | |- sim _ (ret _) (ret _) => first [by apply (sim_ret eq)|by apply sim_ret]
  | |- sim _ (raise _) (raise _) => apply sim_raise
  | |- sim _ (logger _ _) (logger _ _) => apply sim_logger
  | |- sim _ get_fs get_fs => apply sim_get_fs
  | |- sim _ (set_fs _) (set_fs _) => first [apply sim_set_fs|leaf]
  | |- sim _ (path_exists _) (path_exists _) => apply sim_path_exists
  | |- sim _ (call _ _) (call _ _) => leaf
  | |- sim _ (match ?x with _ => _ end) (match ?x with _ => _ end) =>
      destruct x; sim_solve leaf
  end.

Section TokenBlind.

Variables w1 w2 : world.
Hypothesis Hblind : token_blind w1 w2.

Lemma sim_plain_call e :
  is_clone e = false -> sim eq (call w1 e) (call w2 e).
Proof. intros He. apply sim_call. by apply (tb_fault _ _ Hblind). Qed.

Lemma sim_environ_item name :
  sim eq (environ_item w1 name) (environ_item w2 name).
Proof.
  unfold environ_item. rewrite (tb_environ _ _ Hblind).
  destruct (environ w2 !! name); [by apply sim_ret|apply sim_raise].
Qed.

Lemma sim_update_counter p :
  sim eq (update_counter w1 p) (update_counter w2 p).
Proof.
  unfold update_counter, open_read, read, open_write, write, close.
  sim_solve ltac:(by apply sim_plain_call).
Qed.

Lemma sim_get_github_token :
  sim (same_secret w1 w2) (get_github_token w1) (get_github_token w2).
Proof.
  unfold get_github_token.
  apply sim_try_except.
  - eapply sim_bind; [by apply sim_plain_call|]. intros _ _ _.
    eapply sim_bind; [apply sim_environ_item|]. intros secret_id ? <-.
    eapply sim_bind; [by apply sim_plain_call|]. intros _ _ _.
    pose proof (tb_secret _ _ Hblind secret_id) as Hnone.
    destruct (secret_string w1 secret_id) as [t1|] eqn:H1,
             (secret_string w2 secret_id) as [t2|] eqn:H2.
    + apply sim_ret. by exists secret_id.
    + by destruct Hnone as [_ Hnone]; specialize (Hnone eq_refl).
    + by destruct Hnone as [Hnone _]; specialize (Hnone eq_refl).
    + apply sim_raise.
  - intros e. sim_solve idtac.
Qed.

Lemma sim_setup_repo t1 t2 github_repo branch :
  same_secret w1 w2 t1 t2 ->
  sim eq (setup_repo w1 t1 (authenticated_url t1 github_repo) branch)
         (setup_repo w2 t2 (authenticated_url t2 github_repo) branch).
Proof.
  intros (secret_id & H1 & H2).
  destruct (tb_clone _ _ Hblind secret_id t1 t2 github_repo branch H1 H2)
    as [Hfault Hcheckout].
  unfold setup_repo, run_rm_rf, clone_from, repo_dir.
  sim_solve ltac:(first [by apply sim_plain_call | by apply sim_call
                        | rewrite Hcheckout; apply sim_set_fs]).
Qed.

Lemma sim_lambda_steps : sim eq (lambda_steps w1) (lambda_steps w2).
Proof.
  unfold lambda_steps, missing_vars. rewrite (tb_environ _ _ Hblind).
  eapply sim_bind.
  { destruct (List.filter _ _); [by apply (sim_ret eq)|apply sim_raise]. }
  intros _ _ _.
  eapply sim_bind; [apply sim_environ_item|]. intros github_repo ? <-.
  eapply sim_bind; [apply sim_environ_item|]. intros file_path ? <-.
  eapply sim_bind; [apply sim_environ_item|]. intros branch ? <-.
  eapply sim_bind; [apply sim_get_github_token|]. intros t1 t2 Ht.
  eapply sim_bind; [by apply sim_setup_repo|]. intros _ _ _.
  eapply sim_bind; [apply sim_update_counter|]. intros counter ? <-.
  sim_solve ltac:(by apply sim_plain_call).
Qed.

Lemma sim_lambda_handler : sim eq (lambda_handler w1) (lambda_handler w2).
Proof.
  unfold lambda_handler. apply sim_try_except; [apply sim_lambda_steps|].
  intros e. sim_solve idtac.
Qed.

End TokenBlind.

(** ** The token and the log: statements *)


(** What the log holds of a failed clone is the error text as the client
    worded it: a client that quotes the URL puts the token in the log. *)
Remark quoted_url_reaches_log :
  In (ERROR, "Failed to set up repository: fatal: unable to access "
             ++ "'https://ghp_s3cr3t@github.com/octo/counter.git'")
     (log (lambda_handler (Sample.quoting_world "ghp_s3cr3t")
             Sample.empty_disk).2).
Proof. vm_compute. tauto. Qed.


Lemma calm_worlds_token_blind t1 t2 :
  token_blind (Sample.calm_world t1) (Sample.calm_world t2).
Proof.
  by split.
Qed.


(** ** More on the counter store *)

Lemma next_counter_str c : next_counter (Some (File (Py.str c))) = c + 1.
Proof.
  unfold next_counter. by rewrite PyFacts.strip_str, PyFacts.int_str.
Qed.

Lemma lstrip_blank_text text :
  blank text = true -> Py.lstrip_by Py.isspace text = "".
Proof.
  unfold blank. induction text as [|c text IH]; [done|]. simpl.
  intros [Hc Htext]%andb_prop. apply negb_true_iff, negb_false_iff in Hc.
  rewrite Hc. by apply IH.
Qed.

Lemma strip_blank text : blank text = true -> Py.strip text = "".
Proof. intros H. unfold Py.strip. by rewrite (lstrip_blank_text _ H). Qed.



(** X2. A file holding nothing but blanks is treated like an empty one:
    the counter restarts at 1 and the warning quotes the empty text. *)
Theorem update_counter_blank_file w p s text :
  fs s !! p = Some (File text) ->
  blank text = true ->
  no_fault w (read_events p ++ write_events p 1) ->
  update_counter w p s =
    (Ok 1,
     State (<[p := File "1"]> (fs s))
           (log s ++ [(WARNING,
                       "Invalid counter value in file: , resetting to 1")])
           (trace s ++ read_events p ++ write_events p 1)).
Proof.
  intros Hfile Hblank Hnf.
  pose proof (update_counter_run w p s) as Hrun. cbn zeta in Hrun.
  rewrite Hfile in Hrun. unfold next_counter, counter_warning in Hrun.
  rewrite (strip_blank _ Hblank) in Hrun. by rewrite Hrun.
Qed.

Lemma update_counter_blank_file_witness :
  let text := "  " ++ Sample.newline in
  let s := Sample.disk_holding text in
  blank text = true
  /\ (update_counter (Sample.world_with None) Sample.counter_path s).1 = Ok 1.
Proof.
  cbn zeta. split; [reflexivity|].
  rewrite (update_counter_blank_file (Sample.world_with None)
             Sample.counter_path (Sample.disk_holding ("  " ++ Sample.newline))
             ("  " ++ Sample.newline));
    [reflexivity | vm_compute; reflexivity | reflexivity
    | intros e _; reflexivity].
Defined.

(** X3. When the counter path is a directory, [update_counter] raises
    after the one attempt to open it for reading: no file is changed,
    nothing is written, and the failure is logged with its text. *)
Theorem update_counter_on_directory w p s :
  fs s !! p = Some Dir ->
  exists e,
    update_counter w p s =
      (Raise e,
       State (fs s)
             (log s ++ [(ERROR, "Failed to update counter: " ++ exn_str e)])
             (trace s ++ [EOpen p "r"]))
    /\ (fault w (EOpen p "r") = None -> e = is_a_directory p).
Proof.
  intros Hdir. unfold update_counter, open_read.
  unfold_run_goal. rewrite Hdir. simpl.
  destruct (fault w (EOpen p "r")) as [e|] eqn:Hopen; simpl.
  - exists e. by split.
  - rewrite Hdir. simpl. exists (is_a_directory p). by split.
Qed.

Lemma update_counter_on_directory_witness :
  exists e,
    update_counter (Sample.world_with None) "/tmp/repo" Sample.stale_disk =
      (Raise e,
       State (fs Sample.stale_disk)
             [(ERROR, "Failed to update counter: " ++ exn_str e)]
             [EOpen "/tmp/repo" "r"])
    /\ e = is_a_directory "/tmp/repo".
Proof.
  destruct (update_counter_on_directory (Sample.world_with None) "/tmp/repo"
              Sample.stale_disk) as (e & Hrun & He);
    [vm_compute; reflexivity|].
  exists e. split; [exact Hrun|]. by apply He.
Defined.

(** X4. [open(path, "w")] empties the file before anything is written: a
    write that raises after the file was opened leaves it empty, the old
    value gone, and a later run starts again from 1. *)
Theorem update_counter_failed_write w p s e :
  let o := fs s !! p in
  let c := next_counter o in
  o <> Some Dir ->
  no_fault w (match o with Some _ => read_events p | None => [] end
              ++ [EOpen p "w"; EClose p]) ->
  fault w (EWrite p (Py.str c)) = Some e ->
  update_counter w p s =
    (Raise e,
     State (<[p := File ""]> (fs s))
           (log s ++ counter_warning o
            ++ [(ERROR, "Failed to update counter: " ++ exn_str e)])
           (trace s ++ counter_events p o c))
  /\ next_counter (Some (File "")) = 1.
Proof.
  cbn zeta. intros Hdir Hnf Hwrite. split; [|reflexivity].
  unfold update_counter, open_read, read, open_write, write, close.
  unfold_run_goal. unfold no_fault in Hnf.
  destruct (fs s !! p) as [[text|]|] eqn:Ho; [| done |].
  - simpl in Hnf. unfold counter_warning, next_counter in *.
    simpl. feed_faults Hnf. rewrite Ho. simpl. feed_faults Hnf.
    destruct (Py.int (Py.strip text)) as [n|] eqn:Hint; simpl;
      feed_faults Hnf; rewrite Ho; simpl; rewrite Hwrite; simpl;
      feed_faults Hnf; rewrite ?app_nil_r; tidy_trace; done.
  - simpl in *. feed_faults Hnf. rewrite Ho. simpl. rewrite Hwrite. simpl.
    feed_faults Hnf. rewrite ?app_nil_r; tidy_trace; done.
Qed.

Lemma update_counter_failed_write_witness :
  let s := Sample.disk_holding "41" in
  (update_counter Faulty.full_disk Sample.counter_path s).1
    = Raise Faulty.no_space
  /\ fs (update_counter Faulty.full_disk Sample.counter_path s).2
       !! Sample.counter_path = Some (File "").
Proof.
  cbn zeta.
  destruct (update_counter_failed_write Faulty.full_disk Sample.counter_path
              (Sample.disk_holding "41") Faulty.no_space) as [Hrun _].
  - vm_compute. discriminate.
  - intros e He. vm_compute in He.
    by destruct He as [<-|[<-|[<-|[<-|[<-|[]]]]]].
  - reflexivity.
  - rewrite Hrun. split; [reflexivity|]. apply lookup_insert_eq.
Defined.



(** X6. Whatever way [update_counter] ends, every handle on the counter
    file that [open] gave out has been closed: the two [with] blocks see
    to it on the failing paths as well. *)
Theorem update_counter_closes_files w p s :
  fs s !! p <> Some Dir ->
  exists delta,
    trace (update_counter w p s).2 = (trace s ++ delta)%list
    /\ opened w p delta = closed p delta.
Proof.
  intros Hdir.
  destruct (update_counter w p s) as [r s'] eqn:H. simpl.
  unfold update_counter, open_read, read, open_write, write, close in H.
  unfold_run H.
  destruct (fs s !! p) as [[text|]|] eqn:Ho; [| done |]; simpl in H;
    split_run_all H; simplify_eq; simpl;
    eexists; (split; [by tidy_trace|]);
    unfold opened, closed; simpl; rewrite ?String.eqb_refl; simpl;
    repeat match goal with
      | Hf : fault w _ = _ |- _ => rewrite Hf
      end; reflexivity.
Qed.

Lemma update_counter_closes_files_witness :
  let s := Sample.disk_holding "41" in
  exists delta,
    trace (update_counter Faulty.full_disk Sample.counter_path s).2 = delta
    /\ opened Faulty.full_disk Sample.counter_path delta = 2%nat
    /\ closed Sample.counter_path delta = 2%nat.
Proof.
  cbn zeta.
  destruct (update_counter_closes_files Faulty.full_disk Sample.counter_path
              (Sample.disk_holding "41")) as (delta & Htrace & Hbalance).
  - vm_compute. discriminate.
  - exists delta. split; [exact Htrace|].
    assert (Hdelta : delta = trace (update_counter Faulty.full_disk
                                      Sample.counter_path
                                      (Sample.disk_holding "41")).2)
      by (symmetry; exact Htrace).
    rewrite Hdelta. split; vm_compute; reflexivity.
Defined.

(** ** More on the secret resolver and the provisioner *)

Lemma get_github_token_keeps_files w s : fs (get_github_token w s).2 = fs s.
Proof.
  destruct (get_github_token w s) as [r s'] eqn:H. simpl.
  unfold get_github_token, environ_item in H.
  destruct (environ w !! "AWS_SECRET_ID") as [secret_id|] eqn:Hid;
    unfold_run H; split_run_all H; by simplify_eq.
Qed.

Lemma setup_repo_raise_log w token url branch s e s' :
  setup_repo w token url branch s = (Raise e, s') ->
  exists pre,
    log s' = (log s ++ pre
              ++ [(ERROR, ("Failed to set up repository: "
                           ++ exn_str e)%string)])%list.
Proof.
  intros H. unfold setup_repo, run_rm_rf, clone_from, repo_dir in H.
  unfold_run H.
  destruct (fs s !! "/tmp/repo") eqn:Hdir; simpl in H;
    split_run_all H; simplify_eq; simpl;
    first
      [by exists [(INFO, "Cleaning up existing repo directory");
                  (INFO, "Cloning repository")]; tidy_trace
      |by exists [(INFO, "Cleaning up existing repo directory")]; tidy_trace
      |by exists [(INFO, "Cloning repository")]; tidy_trace].
Qed.

(** X7. [get_github_token] never touches a file and never logs the token:
    a normal return leaves the log as it was; a [ClientError] is logged
    once with its text and raised again; any other exception goes up
    without a log line from this function. *)
Theorem get_github_token_outcomes w s :
  let s' := (get_github_token w s).2 in
  fs s' = fs s
  /\ match (get_github_token w s).1 with
     | Ok _ => log s' = log s
     | Raise e =>
         log s' =
           (log s ++ if is_client_error e
                     then [(ERROR, ("Failed to retrieve secret: "
                                    ++ exn_str e)%string)]
                     else [])%list
     end.
Proof.
  cbn zeta. destruct (get_github_token w s) as [r s'] eqn:H. simpl.
  unfold get_github_token, environ_item in H.
  destruct (environ w !! "AWS_SECRET_ID") as [secret_id|] eqn:Hid;
    unfold_run H; split_run_all H; simplify_eq; simpl;
    rewrite ?app_nil_r;
    repeat match goal with
      | Hc : is_client_error _ = _ |- _ => rewrite Hc
      end; rewrite ?app_nil_r; done.
Qed.

(** X8. Called without the setting AWS_SECRET_ID, [get_github_token]
    raises [KeyError] once the client is made: the secret store is not
    asked, and since a [KeyError] is no [ClientError], nothing is logged. *)
Theorem get_github_token_without_secret_id w s :
  environ w !! "AWS_SECRET_ID" = None ->
  fault w (EBotoClient "secretsmanager") = None ->
  get_github_token w s =
    (Raise (Exn KeyError "'AWS_SECRET_ID'"),
     State (fs s) (log s) (trace s ++ [EBotoClient "secretsmanager"])).
Proof.
  intros Hid Hclient. unfold get_github_token, environ_item. rewrite Hid.
  unfold_run_goal. by rewrite Hclient.
Qed.

Lemma get_github_token_without_secret_id_witness :
  get_github_token Faulty.anonymous Sample.empty_disk =
    (Raise (Exn KeyError "'AWS_SECRET_ID'"),
     State ∅ [] [EBotoClient "secretsmanager"]).
Proof.
  apply (get_github_token_without_secret_id Faulty.anonymous
           Sample.empty_disk); vm_compute; reflexivity.
Defined.



(** X10. Once [setup_repo] holds the configuration writer it gives it
    back: on every way out, a writer that was obtained is released, and
    the release is then the last call made. *)
Theorem setup_repo_releases_writer w token url branch s :
  let s' := (setup_repo w token url branch s).2 in
  exists delta,
    trace s' = (trace s ++ delta)%list
    /\ (In (EConfigWriter "repository") delta ->
        fault w (EConfigWriter "repository") = None ->
        exists before, delta = (before ++ [EConfigRelease])%list).
Proof.
  cbn zeta.
  destruct (setup_repo w token url branch s) as [r s'] eqn:H. simpl.
  unfold setup_repo, run_rm_rf, clone_from, repo_dir in H.
  unfold_run H.
  destruct (fs s !! "/tmp/repo") eqn:Hdir; simpl in H;
    split_run_all H; simplify_eq; simpl;
    eexists; (split; [by tidy_trace|]); simpl;
    intros Hin Hok;
    first [congruence
          |by repeat (destruct Hin as [Hin|Hin]; [discriminate Hin|])
          |by eexists [_; _; _; _; _]
          |by eexists [_; _; _; _]
          |by eexists [_; _; _]
          |by eexists [_; _]
          |by eexists [_]].
Qed.

Lemma remove_tree_lookup dir f p :
  remove_tree dir f !! p = if is_below dir p then None else f !! p.
Proof.
  unfold remove_tree. rewrite map_lookup_filter. simpl.
  destruct (f !! p) as [x|]; simpl; [|by destruct (is_below dir p)].
  destruct (is_below dir p); by case_guard.
Qed.

Lemma remove_tree_agree dir (f1 f2 : gmap string node) :
  (forall p, is_below dir p = false -> f1 !! p = f2 !! p) ->
  remove_tree dir f1 = remove_tree dir f2.
Proof.
  intros Hagree. apply map_eq. intros p. rewrite !remove_tree_lookup.
  destruct (is_below dir p) eqn:Hp; [done|by apply Hagree].
Qed.

(** X11. What an earlier run left under "/tmp/repo" has no say: started
    on two disks that both have the directory and agree everywhere
    outside it, [setup_repo] ends the same way, with the same files, once
    the removal goes through. *)
Theorem setup_repo_ignores_stale_clone w token url branch s1 s2 :
  log s1 = log s2 ->
  trace s1 = trace s2 ->
  is_Some (fs s1 !! "/tmp/repo") ->
  is_Some (fs s2 !! "/tmp/repo") ->
  (forall p, is_below "/tmp/repo" p = false -> fs s1 !! p = fs s2 !! p) ->
  fault w (ERun ["rm"; "-rf"; "/tmp/repo"]) = None ->
  setup_repo w token url branch s1 = setup_repo w token url branch s2.
Proof.
  intros Hlog Htrace [n1 H1] [n2 H2] Hagree Hrm.
  apply remove_tree_agree in Hagree.
  unfold setup_repo, run_rm_rf, clone_from, repo_dir.
  unfold_run_goal. rewrite H1, H2, Hrm. simpl.
  by rewrite Hagree, Hlog, Htrace.
Qed.

Lemma setup_repo_ignores_stale_clone_witness :
  let url := "https://ghp_s3cr3t@github.com/octo/counter.git" in
  let w := Sample.world_with (Some "7") in
  setup_repo w "ghp_s3cr3t" url "main" Sample.stale_disk
  = setup_repo w "ghp_s3cr3t" url "main"
      (State {[ "/tmp/repo" := Dir; "/tmp/repository" := File "kept" ]} [] []).
Proof.
  cbn zeta.
  apply setup_repo_ignores_stale_clone; try reflexivity.
  - eexists. vm_compute. reflexivity.
  - eexists. vm_compute. reflexivity.
  - intros p Hp.
    assert (Heq : remove_tree "/tmp/repo" (fs Sample.stale_disk)
                  = remove_tree "/tmp/repo"
                      {[ "/tmp/repo" := Dir;
                         "/tmp/repository" := File "kept" ]})
      by (vm_compute; reflexivity).
    apply (f_equal (fun f => f !! p)) in Heq.
    rewrite !remove_tree_lookup, Hp in Heq. exact Heq.
Defined.

(** ** More on the entry point *)

Section Appends.

Context {A B : Type}.

Lemma appends_ret (a : A) : appends (ret a).
Proof. intros s. exists []. by rewrite app_nil_r. Qed.

Lemma appends_raise e : appends (@raise A e).
Proof. intros s. exists []. by rewrite app_nil_r. Qed.

Lemma appends_bind (m : M A) (k : A -> M B) :
  appends m -> (forall a, appends (k a)) -> appends (bind m k).
Proof.
  intros Hm Hk s. unfold bind. destruct (Hm s) as [l1 H1].
  destruct (m s) as [[a|e] s1]; simpl in *; [|by exists l1].
  destruct (Hk a s1) as [l2 H2]. exists (l1 ++ l2)%list.
  by rewrite H2, H1, app_assoc.
Qed.

Lemma appends_try_except (m : M A) h :
  appends m -> (forall e, appends (h e)) -> appends (try_except m h).
Proof.
  intros Hm Hh s. unfold try_except. destruct (Hm s) as [l1 H1].
  destruct (m s) as [[a|e] s1]; simpl in *; [by exists l1|].
  destruct (Hh e s1) as [l2 H2]. exists (l1 ++ l2)%list.
  by rewrite H2, H1, app_assoc.
Qed.

End Appends.

Lemma appends_with {A B} (enter : M A) leave (body : A -> M B) :
  appends enter -> appends leave -> (forall a, appends (body a)) ->
  appends (with_ enter leave body).
Proof.
  intros Henter Hleave Hbody. unfold with_.
  apply appends_bind; [done|]. intros a s. destruct (Hbody a s) as [l1 H1].
  destruct (body a s) as [[b|e] s1]; simpl in *.
  - destruct (appends_bind leave (fun _ => ret b) Hleave
                (fun _ => appends_ret b) s1) as [l2 H2].
    exists (l1 ++ l2)%list. by rewrite H2, H1, app_assoc.
  - destruct (appends_bind leave (fun _ => @raise B e) Hleave
                (fun _ => appends_raise e) s1) as [l2 H2].
    exists (l1 ++ l2)%list. by rewrite H2, H1, app_assoc.
Qed.


Lemma appends_logger l msg : appends (logger l msg).
Proof. intros s. by exists [(l, msg)]. Qed.

Lemma appends_call w e : appends (call w e).
Proof.
  intros s. exists []. unfold call. rewrite app_nil_r.
  by destruct (fault w e).
Qed.

Lemma appends_get_fs : appends get_fs.
Proof. intros s. exists []. by rewrite app_nil_r. Qed.

Lemma appends_set_fs f : appends (set_fs f).
Proof. intros s. exists []. by rewrite app_nil_r. Qed.

Lemma appends_path_exists p : appends (path_exists p).
Proof. intros s. exists []. by rewrite app_nil_r. Qed.

Lemma appends_environ_item w name : appends (environ_item w name).
Proof.
  unfold environ_item.
  destruct (environ w !! name); [apply appends_ret|apply appends_raise].
Qed.

Ltac appends_solve :=
  lazymatch goal with
  | |- appends (bind _ _) =>
      apply appends_bind; [appends_solve|intros ?; appends_solve]
  | |- appends (try_except _ _) =>
      apply appends_try_except; [appends_solve|intros ?; appends_solve]
  | |- appends (with_ _ _ _) =>
      apply appends_with; [appends_solve|appends_solve|intros ?; appends_solve]
  | |- appends (ret _) => apply appends_ret
  | |- appends (raise _) => apply appends_raise
  | |- appends (logger _ _) => apply appends_logger
  | |- appends get_fs => apply appends_get_fs
  | |- appends (set_fs _) => apply appends_set_fs
  | |- appends (path_exists _) => apply appends_path_exists
  | |- appends (call _ _) => apply appends_call
  | |- appends (environ_item _ _) => apply appends_environ_item
  | |- appends (match ?x with _ => _ end) => destruct x; appends_solve
  end.

Lemma appends_get_github_token w : appends (get_github_token w).
Proof. unfold get_github_token. appends_solve. Qed.

Lemma appends_setup_repo w token url branch :
  appends (setup_repo w token url branch).
Proof. unfold setup_repo, run_rm_rf, clone_from. appends_solve. Qed.

Lemma appends_update_counter w p : appends (update_counter w p).
Proof.
  unfold update_counter, open_read, read, open_write, write, close.
  appends_solve.
Qed.

Lemma appends_lambda_steps w : appends (lambda_steps w).
Proof.
  unfold lambda_steps.
  repeat first
    [ apply appends_get_github_token | apply appends_setup_repo
    | apply appends_update_counter
    | apply appends_bind; [|intros ?]
    | appends_solve ].
Qed.

Lemma counter_warning_no_error o : existsb is_error (counter_warning o) = false.
Proof.
  unfold counter_warning. destruct o as [[text|]|]; try done.
  by destruct (Py.int (Py.strip text)).
Qed.

(** X12. The log tells the two answers apart: the lines a run of
    [lambda_handler] adds to the log hold an ERROR line exactly when the
    answer is 500, and none when it is 200. *)
Theorem lambda_handler_error_line_iff w s :
  exists resp lines,
    (lambda_handler w s).1 = Ok resp
    /\ log (lambda_handler w s).2 = (log s ++ lines)%list
    /\ (statusCode resp = 500 <-> existsb is_error lines = true)
    /\ (statusCode resp = 200 <-> existsb is_error lines = false).
Proof.
  destruct (lambda_steps w s) as [[r|e] s1] eqn:Hsteps.
  - rewrite (lambda_handler_ok _ _ _ _ Hsteps). simpl.
    apply lambda_steps_ok_inv in Hsteps
      as (github_repo & file_path & branch & secret_id & token & _ & _ & _
          & _ & _ & _ & Hrest).
    cbn zeta in Hrest. destruct Hrest as (_ & _ & -> & ->). simpl.
    eexists _, _. split; [reflexivity|]. split; [reflexivity|].
    rewrite !existsb_app, counter_warning_no_error.
    unfold repo_log. destruct (dir_exists _ _); simpl; split; split; done.
  - rewrite (lambda_handler_raise _ _ _ _ Hsteps). simpl.
    destruct (appends_lambda_steps w s) as [lines Hlines].
    rewrite Hsteps in Hlines. simpl in Hlines.
    eexists _, (lines ++ [_])%list. split; [reflexivity|].
    split; [by rewrite Hlines, app_assoc|].
    rewrite existsb_app. simpl. rewrite orb_true_r. split; split; done.
Qed.

(** A response with status 500 can only come out of the [except] clause. *)
Lemma lambda_handler_500_inv w s resp s' :
  lambda_handler w s = (Ok resp, s') ->
  statusCode resp = 500 ->
  exists e s1,
    lambda_steps w s = (Raise e, s1)
    /\ resp = failure_response e
    /\ s' = State (fs s1)
                  (log s1 ++ [(ERROR, "Lambda execution failed: " ++ exn_str e)])
                  (trace s1).
Proof.
  intros Hrun Hcode. destruct (lambda_steps w s) as [[r|e] s1] eqn:Hsteps.
  - rewrite (lambda_handler_ok _ _ _ _ Hsteps) in Hrun. simplify_eq.
    apply lambda_steps_ok_inv in Hsteps
      as (? & ? & ? & ? & ? & _ & _ & _ & _ & _ & _ & Hrest).
    cbn zeta in Hrest. destruct Hrest as (_ & _ & -> & _). done.
  - rewrite (lambda_handler_raise _ _ _ _ Hsteps) in Hrun. simplify_eq.
    by exists e, s1.
Qed.

(** X13. An answer of 500 is never silent: the last line of the log is an
    ERROR line with the very text the body carries. *)
Theorem lambda_handler_failure_logged w s resp s' :
  lambda_handler w s = (Ok resp, s') ->
  statusCode resp = 500 ->
  exists text before,
    body resp = Py.json_dumps [("error", text)]
    /\ log s' = (before ++ [(ERROR, ("Lambda execution failed: "
                                     ++ text)%string)])%list.
Proof.
  intros Hrun Hcode.
  destruct (lambda_handler_500_inv _ _ _ _ Hrun Hcode)
    as (e & s1 & _ & -> & ->).
  exists (exn_str e), (log s1). by split.
Qed.

Lemma lambda_handler_failure_logged_witness :
  let s' := (lambda_handler Faulty.denied Sample.empty_disk).2 in
  let text := exn_str Faulty.access_denied in
  lambda_handler Faulty.denied Sample.empty_disk
    = (Ok (failure_response Faulty.access_denied), s')
  /\ exists t before,
       Py.json_dumps [("error", text)] = Py.json_dumps [("error", t)]
       /\ log s' = (before ++ [(ERROR, ("Lambda execution failed: "
                                        ++ t)%string)])%list.
Proof.
  cbn zeta.
  assert (Hrun : lambda_handler Faulty.denied Sample.empty_disk
                 = (Ok (failure_response Faulty.access_denied),
                    (lambda_handler Faulty.denied Sample.empty_disk).2))
    by (vm_compute; reflexivity).
  split; [exact Hrun|].
  destruct (lambda_handler_failure_logged _ _ _ _ Hrun eq_refl)
    as (t & before & Hbody & Hlog).
  by exists t, before.
Defined.


Lemma get_github_token_calls w s :
  exists delta,
    trace (get_github_token w s).2 = (trace s ++ delta)%list
    /\ Forall (fun ev => is_clone ev = false) delta.
Proof.
  destruct (get_github_token w s) as [r s'] eqn:H. simpl.
  unfold get_github_token, environ_item in H.
  destruct (environ w !! "AWS_SECRET_ID") as [secret_id|] eqn:Hid;
    unfold_run H; split_run_all H; simplify_eq; simpl;
    eexists; (split; [by tidy_trace|]); by repeat constructor.
Qed.

(** X15. When the secret cannot be had, nothing else is attempted: with a
    complete configuration and [get_github_token] raising [e], the handler
    answers 500 with [str(e)], no file has changed and no clone was asked
    for. *)
Theorem lambda_handler_secret_failure w s e s1 :
  missing_vars w = [] ->
  get_github_token w s = (Raise e, s1) ->
  lambda_handler w s =
    (Ok (failure_response e),
     State (fs s)
           (log s1 ++ [(ERROR, "Lambda execution failed: " ++ exn_str e)])
           (trace s1))
  /\ exists delta,
       trace s1 = (trace s ++ delta)%list
       /\ Forall (fun ev => is_clone ev = false) delta.
Proof.
  intros Hmv Htoken.
  destruct (missing_vars_nil_inv w Hmv "GITHUB_REPO") as (v1 & H1 & _);
    [simpl; tauto|].
  destruct (missing_vars_nil_inv w Hmv "FILE_PATH") as (v2 & H2 & _);
    [simpl; tauto|].
  destruct (missing_vars_nil_inv w Hmv "BRANCH") as (v3 & H3 & _);
    [simpl; tauto|].
  pose proof (get_github_token_keeps_files w s) as Hfs.
  pose proof (get_github_token_calls w s) as Hcalls.
  rewrite Htoken in Hfs, Hcalls. simpl in Hfs, Hcalls.
  split; [|exact Hcalls].
  rewrite (lambda_handler_raise w s e s1); [by rewrite Hfs|].
  unfold lambda_steps. rewrite Hmv.
  erewrite bind_ok; [|reflexivity].
  unfold environ_item at 1. rewrite H1. erewrite bind_ok; [|reflexivity].
  unfold environ_item at 1. rewrite H2. erewrite bind_ok; [|reflexivity].
  unfold environ_item at 1. rewrite H3. erewrite bind_ok; [|reflexivity].
  by apply bind_raise.
Qed.

Lemma lambda_handler_secret_failure_witness :
  let s1 := (get_github_token Faulty.denied Sample.stale_disk).2 in
  get_github_token Faulty.denied Sample.stale_disk
    = (Raise Faulty.access_denied, s1)
  /\ lambda_handler Faulty.denied Sample.stale_disk =
       (Ok (failure_response Faulty.access_denied),
        State (fs Sample.stale_disk)
              (log s1 ++ [(ERROR, "Lambda execution failed: "
                                  ++ exn_str Faulty.access_denied)])
              (trace s1)).
Proof.
  cbn zeta.
  assert (Htoken : get_github_token Faulty.denied Sample.stale_disk
                   = (Raise Faulty.access_denied,
                      (get_github_token Faulty.denied Sample.stale_disk).2))
    by (vm_compute; reflexivity).
  split; [exact Htoken|].
  apply (lambda_handler_secret_failure Faulty.denied Sample.stale_disk
           Faulty.access_denied _); [vm_compute; reflexivity|exact Htoken].
Defined.

(** X16. A push that raises comes too late to undo anything: with every
    earlier call going through, the handler answers 500 with the push's
    error text, while the counter file already holds the new value and
    the commit has been made; the second progress line is not logged. *)
Theorem lambda_handler_push_failure
    w s github_repo file_path branch secret_id token e :
  missing_vars w = [] ->
  environ w !! "GITHUB_REPO" = Some github_repo ->
  environ w !! "FILE_PATH" = Some file_path ->
  environ w !! "BRANCH" = Some branch ->
  environ w !! "AWS_SECRET_ID" = Some secret_id ->
  secret_string w secret_id = Some token ->
  let url := authenticated_url token github_repo in
  let path := Py.path_join "/tmp/repo" file_path in
  let there := dir_exists (fs s) "/tmp/repo" in
  let cloned := provisioned w url branch (fs s) in
  let o := cloned !! path in
  let counter := next_counter o in
  let message := "Automated commit: Increment counter to " ++ Py.str counter in
  o <> Some Dir ->
  no_fault w (secret_events secret_id ++ repo_events there url branch
              ++ counter_events path o counter
              ++ [EGitAdd path; EIndexCommit message; ERemote "origin"]) ->
  fault w (EPush "origin") = Some e ->
  lambda_handler w s =
    (Ok (failure_response e),
     State (<[path := File (Py.str counter)]> cloned)
           (log s ++ repo_log there ++ counter_warning o
            ++ [(INFO, "Created commit");
                (ERROR, "Lambda execution failed: " ++ exn_str e)])
           (trace s ++ secret_events secret_id
            ++ repo_events there url branch
            ++ counter_events path o counter
            ++ publish_events path counter)).
Proof.
  intros Hmv Hrepo Hpath Hbranch Hid Hsecret. cbn zeta.
  intros Hdir Hnf Hpush.
  match goal with
  | |- _ = (_, ?final) =>
      match final with
      | State ?f (log s ++ ?l1 ++ ?l2 ++ [?c; ?err]) ?t =>
          rewrite (lambda_handler_raise w s e
                     (State f (log s ++ l1 ++ l2 ++ [c]) t))
      end
  end.
  { simpl. f_equal. f_equal. by rewrite <- !app_assoc. }
  unfold lambda_steps. rewrite Hmv.
  erewrite bind_ok; [|reflexivity].
  unfold environ_item at 1. rewrite Hrepo. erewrite bind_ok; [|reflexivity].
  unfold environ_item at 1. rewrite Hpath. erewrite bind_ok; [|reflexivity].
  unfold environ_item at 1. rewrite Hbranch. erewrite bind_ok; [|reflexivity].
  erewrite bind_ok;
    [|apply (get_github_token_run w s secret_id token Hid Hsecret);
      intros ev Hev; apply Hnf; rewrite !in_app_iff; auto].
  erewrite bind_ok;
    [|apply setup_repo_run; intros ev Hev; apply Hnf;
      rewrite !in_app_iff; auto].
  erewrite bind_ok;
    [|apply update_counter_run;
      [exact Hdir|intros ev Hev; apply Hnf; rewrite !in_app_iff; auto]].
  simpl fs. simpl log. simpl trace.
  assert (Hpub : forall ev,
            In ev [EGitAdd (Py.path_join "/tmp/repo" file_path);
                   EIndexCommit
                     ("Automated commit: Increment counter to "
                      ++ Py.str (next_counter
                           (provisioned w (authenticated_url token github_repo)
                              branch (fs s)
                            !! Py.path_join "/tmp/repo" file_path)));
                   ERemote "origin"] -> fault w ev = None)
    by (intros ev Hev; apply Hnf; rewrite !in_app_iff; auto).
  simpl in Hpub. unfold_run_goal. feed_faults Hpub. rewrite Hpush. simpl.
  unfold publish_events. f_equal. f_equal; by rewrite <- !app_assoc.
Qed.

Lemma lambda_handler_push_failure_witness :
  let s' := (lambda_handler Faulty.rejecting Sample.empty_disk).2 in
  lambda_handler Faulty.rejecting Sample.empty_disk
    = (Ok (failure_response Faulty.rejected), s')
  /\ fs s' !! "/tmp/repo/counter.txt" = Some (File "42")
  /\ In (EIndexCommit "Automated commit: Increment counter to 42") (trace s').
Proof.
  cbn zeta.
  pose proof (lambda_handler_push_failure Faulty.rejecting Sample.empty_disk
                "octo/counter" "counter.txt" "main" "commitron/github"
                "ghp_s3cr3t" Faulty.rejected) as Hrun.
  cbn zeta in Hrun.
  assert (Hout : lambda_handler Faulty.rejecting Sample.empty_disk
                 = (Ok (failure_response Faulty.rejected),
                    (lambda_handler Faulty.rejecting Sample.empty_disk).2)).
  { rewrite Hrun; try (vm_compute; reflexivity).
    - vm_compute. discriminate.
    - intros ev Hev. rewrite !in_app_iff in Hev.
      destruct Hev as [Hev|[Hev|[Hev|Hev]]];
        unfold Faulty.rejecting; simpl;
        [..|simpl in Hev; by destruct Hev as [<-|[<-|[<-|[]]]]];
        revert Hev; generalize ev; clear;
        intros [] Hin; try reflexivity; exfalso; revert Hin;
        vm_compute; intuition discriminate. }
  split; [exact Hout|]. split; vm_compute; [reflexivity|tauto].
Defined.

Lemma length_append s t :
  String.length (s ++ t) = (String.length s + String.length t)%nat.
Proof.
  induction s as [|c s IH]; [done|].
  change (S (String.length (s ++ t))
          = S (String.length s + String.length t)). by rewrite IH.
Qed.

Lemma append_cancel_r s t u : s ++ u = t ++ u -> s = t.
Proof.
  revert t. induction s as [|c s IH]; intros [|d t] H.
  - done.
  - apply (f_equal String.length) in H.
    change (String.length u = S (String.length (t ++ u))) in H.
    rewrite length_append in H. lia.
  - apply (f_equal String.length) in H.
    change (S (String.length (s ++ u)) = String.length u) in H.
    rewrite length_append in H. lia.
  - change (String c (s ++ u) = String d (t ++ u)) in H.
    injection H as -> H. f_equal. by apply IH.
Qed.

Lemma failure_body_inj t1 t2 :
  Py.json_dumps [("error", t1)] = Py.json_dumps [("error", t2)] -> t1 = t2.
Proof.
  unfold Py.json_dumps, Py.json_member. simpl fmap.
  change (Py.join ", " [?x]) with x. simpl fst. simpl snd.
  intros H. apply (inj (String.app "{")) in H.
  rewrite !PyFacts.append_assoc in H.
  apply (inj (String.app _)) in H. apply (inj (String.app ": ")) in H.
  apply append_cancel_r in H. by apply PyFacts.json_string_inj.
Qed.

(** X17. The failure answer loses nothing of the error text: escaping
    can be undone, so two failures with different texts give different
    bodies, and the text is read back from the body's string by undoing
    the escapes. *)
Theorem failure_response_faithful e1 e2 :
  (failure_response e1 = failure_response e2 -> exn_str e1 = exn_str e2)
  /\ json_unescape (Py.json_escape (exn_str e1)) = Some (exn_str e1).
Proof.
  split; [|apply PyFacts.json_unescape_escape].
  intros H. apply (f_equal body) in H. simpl in H. by apply failure_body_inj.
Qed.

(** X18. A FILE_PATH that does not begin with "/" is joined below the
    clone directory as it stands: the counter path is "/tmp/repo/"
    followed by FILE_PATH, and that is the file a run answering 200 has
    written and staged. *)
Theorem relative_file_path_in_clone w file_path :
  environ w !! "FILE_PATH" = Some file_path ->
  Py.startswith file_path "/" = false ->
  Py.path_join "/tmp/repo" file_path = "/tmp/repo/" ++ file_path
  /\ is_below "/tmp/repo" (Py.path_join "/tmp/repo" file_path) = true
  /\ forall s r s',
       lambda_handler w s = (Ok r, s') -> statusCode r = 200 ->
       exists counter,
         fs s' !! ("/tmp/repo/" ++ file_path) = Some (File (Py.str counter))
         /\ In (EGitAdd ("/tmp/repo/" ++ file_path)) (trace s').
Proof.
  intros Hfile Hrel.
  assert (Hjoin : Py.path_join "/tmp/repo" file_path = "/tmp/repo/" ++ file_path).
  { unfold Py.path_join. by rewrite Hrel. }
  split; [exact Hjoin|]. split.
  { rewrite Hjoin. unfold is_below, Py.startswith.
    apply orb_true_iff. right.
    change (("/tmp/repo" ++ "/")%string) with "/tmp/repo/".
    generalize "/tmp/repo/". intros pre.
    induction pre as [|c pre IH]; simpl; [by destruct file_path|].
    change (String c pre ++ file_path) with (String c (pre ++ file_path)).
    destruct (ascii_dec c c); [exact IH|done]. }
  intros s r s' Hrun Hcode.
  apply (lambda_handler_200_inv _ _ _ _ Hrun) in Hcode as Hsteps.
  apply lambda_steps_ok_inv in Hsteps
    as (github_repo & file_path' & branch & secret_id & token & _ & _
        & Hpath & _ & _ & _ & Hrest).
  rewrite Hfile in Hpath. injection Hpath as <-.
  cbn zeta in Hrest. rewrite Hjoin in Hrest.
  destruct Hrest as (_ & _ & _ & ->). eexists. cbn [fs trace].
  split; [apply lookup_insert_eq|].
  do 4 (apply in_or_app; right). by left.
Qed.

Lemma relative_file_path_in_clone_witness :
  let w := Sample.world_with None in
  Py.path_join "/tmp/repo" "counter.txt" = "/tmp/repo/counter.txt"
  /\ fs (lambda_handler w Sample.empty_disk).2 !! "/tmp/repo/counter.txt"
     = Some (File "1").
Proof.
  cbn zeta.
  destruct (relative_file_path_in_clone (Sample.world_with None)
              "counter.txt") as (Hjoin & _ & Hall);
    [vm_compute; reflexivity|reflexivity|].
  split; [exact Hjoin|]. vm_compute. reflexivity.
Defined.

(** X19. The level set when the module is loaded hides the report of a
    failed run only if LOG_LEVEL asks for it: under any accepted level
    up to ERROR, and so with LOG_LEVEL unset, the line "Lambda execution
    failed: ..." of an answer 500 passes the logger; an accepted level
    above ERROR can only come from LOG_LEVEL being CRITICAL or FATAL. *)
Theorem failure_line_passes_level w s resp s' threshold :
  configured_level w = Some threshold ->
  lambda_handler w s = (Ok resp, s') ->
  statusCode resp = 500 ->
  (threshold <= 40 ->
   exists text,
     body resp = Py.json_dumps [("error", text)]
     /\ In (ERROR, "Lambda execution failed: " ++ text)
           (handled threshold (log s')))
  /\ (40 < threshold ->
      environ w !! "LOG_LEVEL" = Some "CRITICAL"
      \/ environ w !! "LOG_LEVEL" = Some "FATAL")
  /\ (environ w !! "LOG_LEVEL" = None -> threshold = 20).
Proof.
  intros Hlevel Hrun Hcode. split; [|split].
  - intros Hle.
    destruct (lambda_handler_500_inv _ _ _ _ Hrun Hcode)
      as (e & s1 & _ & -> & ->).
    exists (exn_str e). split; [reflexivity|]. unfold handled.
    apply filter_In. split.
    + cbn [log]. apply in_app_iff. right. by left.
    + simpl. apply Z.leb_le. exact Hle.
  - intros Hgt. unfold configured_level in Hlevel.
    destruct (environ w !! "LOG_LEVEL") as [name|] eqn:Hname; simpl in Hlevel.
    + unfold name_to_level in Hlevel.
      repeat match type of Hlevel with
        | (if String.eqb ?a ?b then _ else _) = _ =>
            let E := fresh "E" in
            destruct (String.eqb a b) eqn:E;
              [apply String.eqb_eq in E; subst;
               first [by left|by right|injection Hlevel as <-; lia]|]
        end.
      discriminate.
    + vm_compute in Hlevel. injection Hlevel as <-. lia.
  - intros Hnone. unfold configured_level in Hlevel. rewrite Hnone in Hlevel.
    vm_compute in Hlevel. by injection Hlevel as <-.
Qed.

Lemma failure_line_passes_level_witness :
  let s' := (lambda_handler Faulty.denied Sample.empty_disk).2 in
  configured_level Faulty.denied = Some 20
  /\ In (ERROR, "Lambda execution failed: " ++ exn_str Faulty.access_denied)
        (handled 20 (log s')).
Proof.
  cbn zeta.
  assert (Hlevel : configured_level Faulty.denied = Some 20)
    by (vm_compute; reflexivity).
  assert (Hrun : lambda_handler Faulty.denied Sample.empty_disk
                 = (Ok (failure_response Faulty.access_denied),
                    (lambda_handler Faulty.denied Sample.empty_disk).2))
    by (vm_compute; reflexivity).
  split; [exact Hlevel|].
  destruct (failure_line_passes_level _ _ _ _ _ Hlevel Hrun eq_refl)
    as (Hpass & _ & _).
  destruct (Hpass ltac:(lia)) as (text & Hbody & Hin).
  apply failure_body_inj in Hbody. by rewrite Hbody.
Defined.

(** X20. A failed provisioning is reported twice and stops the run: when
    [setup_repo] raises [e] after the secret was fetched, the handler
    answers 500 with [str(e)], no further call is made, and the log ends
    with the provisioner's line followed by the handler's line for the
    same text. *)
Theorem lambda_handler_setup_failure w s github_repo branch token s1 e s2 :
  missing_vars w = [] ->
  environ w !! "GITHUB_REPO" = Some github_repo ->
  environ w !! "BRANCH" = Some branch ->
  get_github_token w s = (Ok token, s1) ->
  setup_repo w token (authenticated_url token github_repo) branch s1
    = (Raise e, s2) ->
  exists before,
    lambda_handler w s =
      (Ok (failure_response e),
       State (fs s2)
             (before
              ++ [(ERROR, "Failed to set up repository: " ++ exn_str e);
                  (ERROR, "Lambda execution failed: " ++ exn_str e)])
             (trace s2))
    /\ log s2 = (before ++ [(ERROR, ("Failed to set up repository: "
                                      ++ exn_str e)%string)])%list.
Proof.
  intros Hmv Hrepo Hbranch Htoken Hsetup.
  destruct (missing_vars_nil_inv w Hmv "FILE_PATH") as (file_path & Hpath & _);
    [simpl; tauto|].
  destruct (setup_repo_raise_log _ _ _ _ _ _ _ Hsetup) as (pre & Hlog).
  exists (log s1 ++ pre)%list. split; [|by rewrite Hlog, app_assoc].
  rewrite (lambda_handler_raise w s e s2).
  - rewrite Hlog. f_equal. f_equal. by rewrite <- !app_assoc.
  - unfold lambda_steps. rewrite Hmv.
    erewrite bind_ok; [|reflexivity].
    unfold environ_item at 1. rewrite Hrepo. erewrite bind_ok; [|reflexivity].
    unfold environ_item at 1. rewrite Hpath. erewrite bind_ok; [|reflexivity].
    unfold environ_item at 1. rewrite Hbranch. erewrite bind_ok; [|reflexivity].
    erewrite bind_ok; [|exact Htoken].
    by apply bind_raise.
Qed.

Lemma lambda_handler_setup_failure_witness :
  let s1 := (get_github_token Faulty.locking Sample.empty_disk).2 in
  let url := authenticated_url "ghp_s3cr3t" "octo/counter" in
  let s2 := (setup_repo Faulty.locking "ghp_s3cr3t" url "main" s1).2 in
  exists before,
    lambda_handler Faulty.locking Sample.empty_disk =
      (Ok (failure_response Faulty.locked),
       State (fs s2)
             (before
              ++ [(ERROR, "Failed to set up repository: "
                          ++ exn_str Faulty.locked);
                  (ERROR, "Lambda execution failed: "
                          ++ exn_str Faulty.locked)])
             (trace s2)).
Proof.
  cbn zeta.
  assert (Htoken : get_github_token Faulty.locking Sample.empty_disk
                   = (Ok "ghp_s3cr3t",
                      (get_github_token Faulty.locking Sample.empty_disk).2))
    by (vm_compute; reflexivity).
  assert (Hsetup : setup_repo Faulty.locking "ghp_s3cr3t"
                     (authenticated_url "ghp_s3cr3t" "octo/counter") "main"
                     (get_github_token Faulty.locking Sample.empty_disk).2
                   = (Raise Faulty.locked,
                      (setup_repo Faulty.locking "ghp_s3cr3t"
                         (authenticated_url "ghp_s3cr3t" "octo/counter")
                         "main"
                         (get_github_token Faulty.locking
                            Sample.empty_disk).2).2))
    by (vm_compute; reflexivity).
  assert (Hmv : missing_vars Faulty.locking = []) by (vm_compute; reflexivity).
  assert (Hrepo : environ Faulty.locking !! "GITHUB_REPO" = Some "octo/counter")
    by (vm_compute; reflexivity).
  assert (Hbranch : environ Faulty.locking !! "BRANCH" = Some "main")
    by (vm_compute; reflexivity).
  destruct (lambda_handler_setup_failure _ _ _ _ _ _ _ _
              Hmv Hrepo Hbranch Htoken Hsetup) as (before & Hrun & _).
  by exists before.
Defined.
